(** * Cadence membership: [HostInfo] (common/membership/hostinfo.go)

    A shallow embedding of the [HostInfo] record of package [membership]
    and of the Go standard-library functions its methods call
    ([net.SplitHostPort], [net.JoinHostPort], [strconv.Itoa],
    [strconv.Quote] behind the [%q] verb, [strings.Join]), followed by the
    properties of [NewHostInfo], [GetNamedAddress], [Belongs], [Identity],
    [Label] and [SetLabel].

    Go strings are byte sequences: they are modelled by [string], whose
    characters are the 256 values of [ascii].  Go [int] indices are [Z],
    with [-1] for "not found" as in the library. *)

From Stdlib Require Import ZArith Ascii String List Lia Bool.
From stdpp Require Import base gmap strings list fin_maps.

Local Open Scope string_scope.
Local Open Scope Z_scope.

(** ** Go strings *)

Module gostring.

(** [len(s)] *)
Definition len (s : string) : Z := Z.of_nat (String.length s).

(** [s[i]]; every use below is at an index the code has checked to be
    in range (Go would panic otherwise), so the default is never read. *)
Definition at_ (s : string) (i : Z) : ascii :=
  match String.get (Z.to_nat i) s with
  | Some c => c
  | None => Ascii.zero
  end.

(** [s[lo:hi]] and [s[lo:]] *)
Definition slice (s : string) (lo hi : Z) : string :=
  String.substring (Z.to_nat lo) (Z.to_nat (hi - lo)) s.

Definition slice_from (s : string) (lo : Z) : string :=
  slice s lo (len s).

(** The value of a byte as an integer, and back. *)
Definition byte_val (c : ascii) : Z := Z.of_N (N_of_ascii c).
Definition byte_of (z : Z) : ascii := ascii_of_N (Z.to_N (z mod 256)).

(** substring test, for statements about the contents of messages *)
Fixpoint Contains (s substr : string) : bool :=
  String.prefix substr s ||
  match s with
  | EmptyString => false
  | String _ s' => Contains s' substr
  end.

End gostring.

(** ** internal/bytealg *)

Module bytealg.

(** [for i := 0; i < len(s); i++ { if s[i] == c { return i } }; return -1] *)
Fixpoint index_from (i : Z) (s : string) (c : ascii) : Z :=
  match s with
  | EmptyString => -1
  | String b s' => if Ascii.eqb b c then i else index_from (i + 1) s' c
  end.

Definition IndexByteString (s : string) (c : ascii) : Z := index_from 0 s c.

(** [for i := len(s) - 1; i >= 0; i-- { if s[i] == c { return i } };
    return -1]: the greatest index holding [c]. *)
Fixpoint last_index_from (i : Z) (s : string) (c : ascii) (found : Z) : Z :=
  match s with
  | EmptyString => found
  | String b s' =>
      last_index_from (i + 1) s' c (if Ascii.eqb b c then i else found)
  end.

Definition LastIndexByteString (s : string) (c : ascii) : Z :=
  last_index_from 0 s c (-1).

End bytealg.

(** ** Go errors

    The two dynamic types of [error] that reach [HostInfo]'s callers:
    [*net.AddrError] from [net.SplitHostPort] and the value made by
    [fmt.Errorf]; a nil error is [None]. *)

Inductive error : Type :=
| AddrError (Err Addr : string)
| errorString (s : string).

(** [err.Error()] *)
Definition Error (e : error) : string :=
  match e with
  | AddrError Err Addr =>
      match Addr with
      | EmptyString => Err
      | _ => "address " +:+ Addr +:+ ": " +:+ Err
      end
  | errorString s => s
  end.

(** ** net *)

Module net.
Import gostring bytealg.

Definition missingPort : string := "missing port in address".
Definition tooManyColons : string := "too many colons in address".

Definition addrErr (addr why : string) : string * string * option error :=
  ("", "", Some (AddrError why addr)).

(** [SplitHostPort] splits "host:port", "host%zone:port", "[host]:port"
    or "[host%zone]:port" into host and port. *)
Definition SplitHostPort (hostport : string)
  : string * string * option error :=
  (* The port starts after the last colon. *)
  let i := LastIndexByteString hostport ":" in
  if i <? 0 then addrErr hostport missingPort else
  let after (host : string) (j k : Z) :=
    if 0 <=? IndexByteString (slice_from hostport j) "[" then
      addrErr hostport "unexpected '[' in address"
    else if 0 <=? IndexByteString (slice_from hostport k) "]" then
      addrErr hostport "unexpected ']' in address"
    else (host, slice_from hostport (i + 1), None) in
  if Ascii.eqb (at_ hostport 0) "[" then
    (* Expect the first ']' just before the last ':'. *)
    let end_ := IndexByteString hostport "]" in
    if end_ <? 0 then addrErr hostport "missing ']' in address" else
    if end_ + 1 =? len hostport then
      (* There can't be a ':' behind the ']' now. *)
      addrErr hostport missingPort
    else if end_ + 1 =? i then
      (* The expected result. *)
      after (slice hostport 1 end_) 1 (end_ + 1)
    else
      (* Either ']' isn't followed by a colon, or it is followed by a
         colon that is not the last one. *)
      if Ascii.eqb (at_ hostport (end_ + 1)) ":" then
        addrErr hostport tooManyColons
      else addrErr hostport missingPort
  else
    let host := slice hostport 0 i in
    if 0 <=? IndexByteString host ":" then addrErr hostport tooManyColons
    else after host 0 0.

(** [JoinHostPort]: a host with a colon is taken for a literal IPv6
    address and bracketed. *)
Definition JoinHostPort (host port : string) : string :=
  if 0 <=? IndexByteString host ":" then
    "[" +:+ host +:+ "]:" +:+ port
  else host +:+ ":" +:+ port.

End net.

(** ** unicode/utf8 *)

Module utf8.
Import gostring.

Definition RuneError : Z := 0xFFFD.
Definition RuneSelf : Z := 0x80.
Definition MaxRune : Z := 0x10FFFF.
Definition surrogateMin : Z := 0xD800.
Definition surrogateMax : Z := 0xDFFF.

Definition tx : Z := 0x80.
Definition t2 : Z := 0xC0.
Definition t3 : Z := 0xE0.
Definition t4 : Z := 0xF0.
Definition maskx : Z := 0x3F.
Definition mask2 : Z := 0x1F.
Definition mask3 : Z := 0x0F.
Definition mask4 : Z := 0x07.
Definition rune1Max : Z := 0x7F.
Definition rune2Max : Z := 0x7FF.
Definition rune3Max : Z := 0xFFFF.
Definition locb : Z := 0x80.
Definition hicb : Z := 0xBF.

(** Entries of [first]: information about the first byte of an
    encoding (size in the low bits, accept range in the high ones). *)
Definition xx : Z := 0xF1.
Definition as_ : Z := 0xF0.
Definition s1 : Z := 0x02.
Definition s2 : Z := 0x13.
Definition s3 : Z := 0x03.
Definition s4 : Z := 0x23.
Definition s5 : Z := 0x34.
Definition s6 : Z := 0x04.
Definition s7 : Z := 0x44.

(** The table [first[256]], by ranges of its index. *)
Definition first (b : Z) : Z :=
  if b <? 0x80 then as_
  else if b <? 0xC2 then xx
  else if b <? 0xE0 then s1
  else if b =? 0xE0 then s2
  else if b <? 0xED then s3
  else if b =? 0xED then s4
  else if b <? 0xF0 then s3
  else if b =? 0xF0 then s5
  else if b <? 0xF4 then s6
  else if b =? 0xF4 then s7
  else xx.

(** The table [acceptRanges[16]] of (lo, hi) bounds on the second byte. *)
Definition acceptRanges (i : Z) : Z * Z :=
  if i =? 0 then (locb, hicb)
  else if i =? 1 then (0xA0, hicb)
  else if i =? 2 then (locb, 0x9F)
  else if i =? 3 then (0x90, hicb)
  else if i =? 4 then (locb, 0x8F)
  else (0, 0).

(** Conversion to [int32] (the type [rune]), wrapping around. *)
Definition int32 (z : Z) : Z := (z + 2 ^ 31) mod 2 ^ 32 - 2 ^ 31.

Definition DecodeRuneInString (s : string) : Z * Z :=
  let n := len s in
  if n <? 1 then (RuneError, 0) else
  let s0 := byte_val (at_ s 0) in
  let x := first s0 in
  if as_ <=? x then
    (* mask is 0 for ASCII and all ones for an invalid first byte *)
    let mask := Z.shiftr (int32 (Z.shiftl x 31)) 31 in
    (Z.lor (Z.land s0 (Z.lnot mask)) (Z.land RuneError mask), 1)
  else
  let sz := Z.land x 7 in
  let accept := acceptRanges (Z.shiftr x 4) in
  if n <? sz then (RuneError, 1) else
  let b1 := byte_val (at_ s 1) in
  if (b1 <? fst accept) || (snd accept <? b1) then (RuneError, 1) else
  if sz <=? 2 then
    (Z.lor (Z.shiftl (Z.land s0 mask2) 6) (Z.land b1 maskx), 2)
  else
  let b2 := byte_val (at_ s 2) in
  if (b2 <? locb) || (hicb <? b2) then (RuneError, 1) else
  if sz <=? 3 then
    (Z.lor (Z.lor (Z.shiftl (Z.land s0 mask3) 12)
                  (Z.shiftl (Z.land b1 maskx) 6))
           (Z.land b2 maskx), 3)
  else
  let b3 := byte_val (at_ s 3) in
  if (b3 <? locb) || (hicb <? b3) then (RuneError, 1) else
  (Z.lor (Z.lor (Z.lor (Z.shiftl (Z.land s0 mask4) 18)
                       (Z.shiftl (Z.land b1 maskx) 12))
                (Z.shiftl (Z.land b2 maskx) 6))
         (Z.land b3 maskx), 4).

Definition ValidRune (r : Z) : bool :=
  if (0 <=? r) && (r <? surrogateMin) then true
  else if (surrogateMax <? r) && (r <=? MaxRune) then true
  else false.

(** [AppendRune(p, r)], as the bytes appended to [p]. *)
Definition AppendRune (r : Z) : string :=
  let enc3 (r : Z) : string :=
    String (byte_of (Z.lor t3 (Z.shiftr r 12 mod 256)))
   (String (byte_of (Z.lor tx (Z.land (Z.shiftr r 6 mod 256) maskx)))
   (String (byte_of (Z.lor tx (Z.land (r mod 256) maskx))) "")) in
  let i := r mod 2 ^ 32 in
  if i <=? rune1Max then String (byte_of r) ""
  else if i <=? rune2Max then
    String (byte_of (Z.lor t2 (Z.shiftr r 6 mod 256)))
   (String (byte_of (Z.lor tx (Z.land (r mod 256) maskx))) "")
  else if (MaxRune <? i) || ((surrogateMin <=? i) && (i <=? surrogateMax))
  then enc3 RuneError
  else if i <=? rune3Max then enc3 r
  else
    String (byte_of (Z.lor t4 (Z.shiftr r 18 mod 256)))
   (String (byte_of (Z.lor tx (Z.land (Z.shiftr r 12 mod 256) maskx)))
   (String (byte_of (Z.lor tx (Z.land (Z.shiftr r 6 mod 256) maskx)))
   (String (byte_of (Z.lor tx (Z.land (r mod 256) maskx))) ""))).

End utf8.

(** ** strconv *)

Module strconv.
Import gostring.

Definition digits : string := "0123456789".
Definition lowerhex : string := "0123456789abcdef".

(** [formatBits] in base 10: the digits of [u] are written from the
    least significant one, right to left, until the quotient is
    exhausted.  The buffer of the library holds the 20 digits a
    [uint64] can have; [fuel] is that bound. *)
Fixpoint formatBits (fuel : nat) (u : Z) (acc : string) : string :=
  match fuel with
  | O => acc
  | S fuel' =>
      let acc' := String (at_ digits (u mod 10)) acc in
      if u <? 10 then acc' else formatBits fuel' (u / 10) acc'
  end.

Definition FormatInt10 (i : Z) : string :=
  if i <? 0 then String "-" (formatBits 20 (- i) "")
  else formatBits 20 i "".

(** [Itoa(i)] is [FormatInt(int64(i), 10)]. *)
Definition Itoa (i : Z) : string := FormatInt10 i.

Section Quote.

(** [IsPrint] decides code points above Latin-1 by binary search in
    the generated tables [isPrint16], [isNotPrint16], [isPrint32] and
    [isNotPrint32]; the outcome of that search is a parameter. *)
Variable isPrintTables : Z -> bool.

Definition IsPrint (r : Z) : bool :=
  (* Fast check for Latin-1 *)
  if r <=? 0xFF then
    if (0x20 <=? r) && (r <=? 0x7E) then
      (* All the ASCII is printable from space through DEL-1. *)
      true
    else if (0xA1 <=? r) && (r <=? 0xFF) then
      (* Similarly for the upper half, except for the soft hyphen. *)
      negb (r =? 0xAD)
    else false
  else isPrintTables r.

Definition hex (r : Z) (shift : Z) : ascii :=
  at_ lowerhex (Z.land (Z.shiftr r shift) 0xF).

(** [appendEscapedRune(buf, r, quote, ASCIIonly, graphicOnly)] with
    both flags false, which is how [Quote] calls it; the result is
    the text appended to [buf]. *)
Definition appendEscapedRune (r : Z) (quote : ascii) : string :=
  if (r =? byte_val quote) || (r =? byte_val "\") then
    (* always backslashed *)
    String "\" (String (byte_of r) "")
  else if IsPrint r then utf8.AppendRune r
  else if r =? 7 then "\a"
  else if r =? 8 then "\b"
  else if r =? 12 then "\f"
  else if r =? 10 then "\n"
  else if r =? 13 then "\r"
  else if r =? 9 then "\t"
  else if r =? 11 then "\v"
  else if (r <? 0x20) || (r =? 0x7F) then
    "\x" +:+ String (hex (r mod 256) 4) (String (hex (r mod 256) 0) "")
  else
    let u4 (r : Z) : string :=
      "\u" +:+ String (hex r 12) (String (hex r 8)
              (String (hex r 4) (String (hex r 0) ""))) in
    if negb (utf8.ValidRune r) then u4 0xFFFD
    else if r <? 0x10000 then u4 r
    else
      "\U" +:+ String (hex r 28) (String (hex r 24)
              (String (hex r 20) (String (hex r 16)
              (String (hex r 12) (String (hex r 8)
              (String (hex r 4) (String (hex r 0) ""))))))).

(** The loop of [appendQuotedWith]:
    [for width := 0; len(s) > 0; s = s[width:]].  The recursion is on
    the bytes of [s]; [skip] counts the bytes of the current rune that
    are still to be stepped over ([width - 1] after a rune has been
    written). *)
Fixpoint quoteLoop (s : string) (skip : nat) (quote : ascii) : string :=
  match s with
  | EmptyString => ""
  | String b s' =>
      match skip with
      | S k => quoteLoop s' k quote
      | O =>
          let '(r, width) :=
            if byte_val b <? utf8.RuneSelf then (byte_val b, 1)
            else utf8.DecodeRuneInString s in
          if (width =? 1) && (r =? utf8.RuneError) then
            "\x" +:+ String (hex (byte_val b) 4)
                    (String (hex (byte_val b) 0) "")
            +:+ quoteLoop s' 0 quote
          else
            appendEscapedRune r quote
            +:+ quoteLoop s' (Z.to_nat (width - 1)) quote
      end
  end.

Definition appendQuotedWith (s : string) (quote : ascii) : string :=
  String quote (quoteLoop s 0 quote +:+ String quote "").

(** [Quote(s)] quotes with the double quote character (byte 34), both
    flags false. *)
Definition Quote (s : string) : string :=
  appendQuotedWith s (ascii_of_nat 34).

End Quote.

End strconv.

(** ** strings *)

Module gostrings.

(** [Join(elems, sep)] *)
Fixpoint Join (elems : list string) (sep : string) : string :=
  match elems with
  | [] => ""
  | [e] => e
  | e :: rest => e +:+ sep +:+ Join rest sep
  end.

End gostrings.

(** ** fmt

    The three format strings of the package are translated verb by verb:
    [%s] of a string is the string, [%d] of an unsigned integer its
    decimal digits, [%q] of a string is [strconv.Quote] of it, and [%s]
    or [%+v] of a value with a [String] method is the result of that
    method. *)

Module fmt.

Definition verb_s (s : string) : string := s.
Definition verb_d (n : N) : string := strconv.formatBits 20 (Z.of_N n) "".
Definition verb_q (isPrintTables : Z -> bool) (s : string) : string :=
  strconv.Quote isPrintTables s.

(** [Errorf] without a [%w] verb: an error whose text is the
    formatted message. *)
Definition Errorf (msg : string) : error := errorString msg.

End fmt.

(** ** package membership *)

Definition PortTchannel : string := "tchannel".
Definition PortGRPC : string := "grpc".

(** [PortMap] is a map of port names to port numbers,
    [map[string]uint16]; port numbers are naturals below [2^16].  The nil
    map, which reads like the empty one, is [∅]. *)
Abbreviation uint16 := N (only parsing).
Abbreviation PortMap := (gmap string uint16) (only parsing).

Definition uint16_ok (n : uint16) : Prop := (n < 65536)%N.

(** [HostInfo] is a type that contains the info about a cadence host *)
Record HostInfo : Type := mkHostInfo {
  addr : string;      (* ip:port returned by peer provider *)
  ip : string;
  identity : string;
  portMap : PortMap   (* ports host is listening to *)
}.

(** [NewHostInfo] creates a new HostInfo instance; the fields it does not
    set hold their zero values. *)
Definition NewHostInfo (addr : string) : HostInfo :=
  let '(ip, _, _) := net.SplitHostPort addr in
  {| addr := addr; ip := ip; identity := ""; portMap := ∅ |}.

(** [NewDetailedHostInfo] creates a new HostInfo instance with identity
    and portmap information *)
Definition NewDetailedHostInfo (addr identity : string) (portMap : PortMap)
  : HostInfo :=
  let '(ip, _, _) := net.SplitHostPort addr in
  {| addr := addr; ip := ip; identity := identity; portMap := portMap |}.

(** [GetAddress] returns the ip:port address *)
Definition GetAddress (hi : HostInfo) : string := addr hi.

(** [Identity] implements ringpop's Membership interface *)
Definition Identity (hi : HostInfo) : string :=
  (* if identity is not set, return address *)
  if String.eqb (identity hi) "" then addr hi else identity hi.

(** [Label] is a noop function to conform to ringpop hashring member
    interface *)
Definition Label (hi : HostInfo) (key : string) : string * bool :=
  ("", false).

(** [SetLabel] is a noop function to conform to ringpop hashring member
    interface: its body is empty and it returns nothing. *)
Definition SetLabel (hi : HostInfo) (key value : string) : unit := tt.

(** The body of the loop of [Belongs],
    [for _, number := range hi.portMap], over the entries in the order
    the iteration delivers them. *)
Fixpoint Belongs_loop (port : string) (entries : list (string * uint16))
  : bool :=
  match entries with
  | [] => false
  | (_, number) :: rest =>
      if String.eqb port (strconv.Itoa (Z.of_N number)) then true
      else Belongs_loop port rest
  end.

Section HostInfo.

(** Go leaves the order in which [range] visits a map unspecified: it
    is a parameter, which the properties below take to be any
    enumeration of the entries of the map (a permutation of
    [map_to_list]). *)
Variable rangeOrder : PortMap -> list (string * uint16).

(** The table lookups of [strconv.IsPrint], used by [%q]. *)
Variable isPrintTables : Z -> bool.

(** [String] formats a PortMap into a string of name:port pairs *)
Definition PortMap_String (m : PortMap) : string :=
  gostrings.Join
    (map (fun '(name, port) =>
            fmt.verb_s name +:+ ":" +:+ fmt.verb_d port)
         (rangeOrder m))
    ", ".

(** [String] will return a human-readable host details *)
Definition HostInfo_String (hi : HostInfo) : string :=
  "addr: " +:+ fmt.verb_s (addr hi) +:+
  ", identity: " +:+ fmt.verb_s (identity hi) +:+
  ", portMap: " +:+ PortMap_String (portMap hi).

(** [GetNamedAddress] returns the ip:port address.  Inside the [if] the
    name [port] is the number found in the map; in the error message it
    is the method's string argument again. *)
Definition GetNamedAddress (hi : HostInfo) (port : string)
  : string * option error :=
  match portMap hi !! port with
  | Some number =>
      (net.JoinHostPort (ip hi) (strconv.Itoa (Z.of_N number)), None)
  | None =>
      ("", Some (fmt.Errorf ("port " +:+ fmt.verb_q isPrintTables port +:+
                             " is not set for " +:+ HostInfo_String hi)))
  end.

(** [Belongs] tells if ip:port is assigned to this member *)
Definition Belongs (hi : HostInfo) (address : string)
  : bool * option error :=
  if String.eqb (addr hi) address then (true, None) else
  let '(ip_, port, err) := net.SplitHostPort address in
  match err with
  | Some e => (false, Some e)
  | None =>
      if negb (String.eqb ip_ (ip hi)) then (false, None) else
      if Belongs_loop port (rangeOrder (portMap hi)) then (true, None)
      else (false, None)
  end.

(** *** Calls on a record, and the memory they run in

    A [HostInfo] in a Go variable holds three strings and a map value;
    a map value is nil or a reference to a map object, which every copy
    of the record shares.  [HostInfoValue] is such a variable, the heap
    gives the map object at each address, and [contents] is the record a
    variable stands for in a heap. *)

Record HostInfoValue : Type := mkHostInfoValue {
  val_addr : string;
  val_ip : string;
  val_identity : string;
  val_portMap : option nat
}.

Definition deref (heap : gmap nat (gmap string N)) (m : option nat)
  : gmap string N :=
  match m with
  | Some l => default ∅ (heap !! l)
  | None => ∅
  end.

Definition contents (heap : gmap nat (gmap string N)) (v : HostInfoValue)
  : HostInfo :=
  {| addr := val_addr v; ip := val_ip v; identity := val_identity v;
     portMap := deref heap (val_portMap v) |}.

(** The constructors, as they fill a variable: [NewHostInfo] leaves the
    map nil, [NewDetailedHostInfo] stores the map value it is given,
    without copying the map object. *)
Definition NewHostInfo_value (addr : string) : HostInfoValue :=
  let '(ip, _, _) := net.SplitHostPort addr in
  {| val_addr := addr; val_ip := ip; val_identity := "";
     val_portMap := None |}.

Definition NewDetailedHostInfo_value
    (addr identity : string) (portMap : option nat) : HostInfoValue :=
  let '(ip, _, _) := net.SplitHostPort addr in
  {| val_addr := addr; val_ip := ip; val_identity := identity;
     val_portMap := portMap |}.

(** A method body runs on its receiver variable and the heap; it gives a
    result and leaves both in some state. *)
Definition Method (A : Type) : Type :=
  HostInfoValue * gmap nat (gmap string N) ->
  A * (HostInfoValue * gmap nat (gmap string N)).

Definition ret {A : Type} (a : A) : Method A := fun st => (a, st).

Definition bind {A B : Type} (m : Method A) (k : A -> Method B) : Method B :=
  fun st => let '(a, st') := m st in k a st'.

Local Notation "'do' x <- m ; k" := (bind m (fun x => k))
  (at level 10, x name, m at level 100, k at level 200).

(** Reading the receiver variable, [hi]. *)
Definition receiver : Method HostInfoValue := fun st => (st.1, st).

(** Reading a map value: [m[key]] and [range m] go through this. *)
Definition map_read (m : option nat) : Method (gmap string N) :=
  fun st => (deref st.2 m, st).

(** [m[key] = number] on the map object at address [l]: what a body
    would do to change a port table.  No method of the package does. *)
Definition map_store (l : nat) (key : string) (number : N) : Method unit :=
  fun st => (tt, (st.1, <[l := <[key := number]> (default ∅ (st.2 !! l))]> st.2)).

(** The entries of a map in the order [range] delivers them. *)
Definition range (m : option nat) : Method (list (string * uint16)) :=
  do entries <- map_read m; ret (rangeOrder entries).

(** A call of a method with a value receiver from inside a body: the
    callee runs on a copy of the record, and of what it leaves only the
    heap concerns the caller. *)
Definition call {A : Type} (copy : HostInfoValue) (body : Method A)
  : Method A :=
  fun st => let '(a, (_, heap')) := body (copy, st.2) in (a, (st.1, heap')).

(** The bodies of the methods, statement by statement. *)

Definition PortMap_String_body (m : option nat) : Method string :=
  do entries <- range m;
  ret (gostrings.Join
         (map (fun '(name, port) =>
                 fmt.verb_s name +:+ ":" +:+ fmt.verb_d port)
              entries)
         ", ").

Definition HostInfo_String_body : Method string :=
  do hi <- receiver;
  do ports <- PortMap_String_body (val_portMap hi);
  ret ("addr: " +:+ fmt.verb_s (val_addr hi) +:+
       ", identity: " +:+ fmt.verb_s (val_identity hi) +:+
       ", portMap: " +:+ ports).

Definition GetAddress_body : Method string :=
  do hi <- receiver; ret (val_addr hi).

Definition GetNamedAddress_body (port : string)
  : Method (string * option error) :=
  do hi <- receiver;
  do table <- map_read (val_portMap hi);
  match table !! port with
  | Some number =>
      ret (net.JoinHostPort (val_ip hi) (strconv.Itoa (Z.of_N number)), None)
  | None =>
      do text <- call hi HostInfo_String_body;
      ret ("", Some (fmt.Errorf ("port " +:+ fmt.verb_q isPrintTables port +:+
                                 " is not set for " +:+ text)))
  end.

Definition Belongs_body (address : string) : Method (bool * option error) :=
  do hi <- receiver;
  if String.eqb (val_addr hi) address then ret (true, None) else
  let '(ip_, port, err) := net.SplitHostPort address in
  match err with
  | Some e => ret (false, Some e)
  | None =>
      if negb (String.eqb ip_ (val_ip hi)) then ret (false, None) else
      do entries <- range (val_portMap hi);
      if Belongs_loop port entries then ret (true, None)
      else ret (false, None)
  end.

Definition Identity_body : Method string :=
  do hi <- receiver;
  if String.eqb (val_identity hi) "" then ret (val_addr hi)
  else ret (val_identity hi).

Definition Label_body (key : string) : Method (string * bool) :=
  ret ("", false).

Definition SetLabel_body (key value : string) : Method unit := ret tt.

Inductive Call : Type :=
| CallGetAddress
| CallGetNamedAddress (port : string)
| CallBelongs (address : string)
| CallIdentity
| CallLabel (key : string)
| CallSetLabel (key value : string)
| CallString.

Inductive Result : Type :=
| RetString (s : string)
| RetStringError (s : string) (err : option error)
| RetBoolError (b : bool) (err : option error)
| RetStringBool (s : string) (b : bool)
| RetNothing.

(** A call from outside, on the record in the variable [v]: the body
    runs on a copy of [v], so [v] itself is out of its reach; the caller
    gets the result and the heap the body leaves. *)
Definition invoke (v : HostInfoValue) (heap : gmap nat (gmap string N))
    (c : Call) : Result * gmap nat (gmap string N) :=
  match c with
  | CallGetAddress =>
      let '(s, (_, heap')) := GetAddress_body (v, heap) in
      (RetString s, heap')
  | CallGetNamedAddress port =>
      let '((s, err), (_, heap')) := GetNamedAddress_body port (v, heap) in
      (RetStringError s err, heap')
  | CallBelongs address =>
      let '((b, err), (_, heap')) := Belongs_body address (v, heap) in
      (RetBoolError b err, heap')
  | CallIdentity =>
      let '(s, (_, heap')) := Identity_body (v, heap) in
      (RetString s, heap')
  | CallLabel key =>
      let '((value, has), (_, heap')) := Label_body key (v, heap) in
      (RetStringBool value has, heap')
  | CallSetLabel key value =>
      let '(_, (_, heap')) := SetLabel_body key value (v, heap) in
      (RetNothing, heap')
  | CallString =>
      let '(s, (_, heap')) := HostInfo_String_body (v, heap) in
      (RetString s, heap')
  end.

(** The heap after a sequence of calls on the record in [v]. *)
Fixpoint run (v : HostInfoValue) (heap : gmap nat (gmap string N))
    (calls : list Call) : gmap nat (gmap string N) :=
  match calls with
  | [] => heap
  | c :: rest => run v (invoke v heap c).2 rest
  end.

(** What a call returns, as a function of the record. *)
Definition result_of (hi : HostInfo) (c : Call) : Result :=
  match c with
  | CallGetAddress => RetString (GetAddress hi)
  | CallGetNamedAddress port =>
      let '(s, err) := GetNamedAddress hi port in RetStringError s err
  | CallBelongs address =>
      let '(b, err) := Belongs hi address in RetBoolError b err
  | CallIdentity => RetString (Identity hi)
  | CallLabel key =>
      let '(value, has) := Label hi key in RetStringBool value has
  | CallSetLabel key value => RetNothing
  | CallString => RetString (HostInfo_String hi)
  end.

End HostInfo.

(** ** Vocabulary of the statements *)

(** The number a string of decimal digits denotes, leading zeros
    allowed; [None] for the empty string and for any other text.  This is
    the numeric reading of a port string. *)
Fixpoint decimal_value_from (acc : Z) (s : string) : option Z :=
  match s with
  | EmptyString => Some acc
  | String c s' =>
      let d := gostring.byte_val c - 48 in
      if (0 <=? d) && (d <=? 9) then decimal_value_from (10 * acc + d) s'
      else None
  end.

Definition decimal_value (s : string) : option Z :=
  match s with
  | EmptyString => None
  | _ => decimal_value_from 0 s
  end.

(** A byte that [%q] copies as it is: printable ASCII other than the
    double quote (34) and the backslash (92). *)
Definition plain_byte (c : ascii) : bool :=
  let v := gostring.byte_val c in
  (0x20 <=? v) && (v <=? 0x7E) && negb (v =? 34) && negb (v =? 92).

Fixpoint plain_name (s : string) : bool :=
  match s with
  | EmptyString => true
  | String c s' => plain_byte c && plain_name s'
  end.

(** A decimal digit, and the strings made of digits only. *)
Definition is_digit (c : ascii) : bool :=
  let v := gostring.byte_val c in (48 <=? v) && (v <=? 57).

Fixpoint all_digits (s : string) : bool :=
  match s with
  | EmptyString => true
  | String c s' => is_digit c && all_digits s'
  end.

(** An address written in the bracketed form "[host]:port". *)
Definition bracketed (address : string) : bool :=
  Ascii.eqb (gostring.at_ address 0) "[".

(** ** Records used in the examples *)

(** The byte 34, the double quote. *)
Definition dquote : ascii := ascii_of_nat 34.

(** The record of the examples: address "10.0.0.1:7933" and a grpc port
    7941. *)
Definition example_ports : gmap string N := {[ PortGRPC := 7941%N ]}.

Definition example_host : HostInfo :=
  NewDetailedHostInfo "10.0.0.1:7933" "" example_ports.

(** A record made from an address that does not parse. *)
Definition unparsed_host : HostInfo :=
  NewDetailedHostInfo "not-an-address" "" example_ports.

(** Tables of [strconv.IsPrint] with no entry; the texts of the examples
    are ASCII, for which the tables are not consulted. *)
Definition no_tables : Z -> bool := fun _ => false.

(** A port name with a double quote in it: a, double quote, b. *)
Definition quoted_name : string := String "a" (String dquote "b").

(** The message [GetNamedAddress] makes for [quoted_name] on
    [example_host]: between the quotes, the name has a backslash before
    its double quote. *)
Definition quoted_name_message : string :=
  "port " +:+ String dquote ("a\" +:+ String dquote ("b" +:+ String dquote
    " is not set for addr: 10.0.0.1:7933, identity: , portMap: grpc:7941")).

(** A byte occurs in a string. *)
Fixpoint occurs (c : ascii) (s : string) : bool :=
  match s with
  | EmptyString => false
  | String b s' => Ascii.eqb b c || occurs c s'
  end.

(** A record with an IPv6 address, an identity and the same ports. *)
Definition ipv6_host : HostInfo :=
  NewDetailedHostInfo "[::1]:7933" "node-A" example_ports.

(** A port table with two entries, and an iteration that visits the
    entries in the order opposite to that of [map_to_list]. *)
Definition two_ports : gmap string N :=
  {[ PortTchannel := 7933%N; PortGRPC := 7941%N ]}.

Definition reversed_order (m : gmap string N) : list (string * N) :=
  reverse (map_to_list m).

(** A port table in which two names share a port. *)
Definition shared_ports : gmap string N :=
  {[ PortGRPC := 7941%N; "admin" := 7941%N ]}.

(** The record of the examples in memory: its port table is the map
    object at address 0. *)
Definition example_heap : gmap nat (gmap string N) := {[ 0%nat := example_ports ]}.

Definition example_value : HostInfoValue :=
  NewDetailedHostInfo_value "10.0.0.1:7933" "" (Some 0%nat).

(** ** The library functions on examples *)

Example SplitHostPort_plain :
  net.SplitHostPort "10.0.0.1:7933" = ("10.0.0.1", "7933", None).
Proof. reflexivity. Qed.

Example SplitHostPort_bracket :
  net.SplitHostPort "[::1]:7933" = ("::1", "7933", None).
Proof. reflexivity. Qed.

Example SplitHostPort_missing :
  net.SplitHostPort "not-an-address"
  = ("", "", Some (AddrError "missing port in address" "not-an-address")).
Proof. reflexivity. Qed.

Example SplitHostPort_colons :
  net.SplitHostPort "::1:7933"
  = ("", "", Some (AddrError "too many colons in address" "::1:7933")).
Proof. reflexivity. Qed.

Example SplitHostPort_empty_host :
  net.SplitHostPort ":7941" = ("", "7941", None).
Proof. reflexivity. Qed.

Example Itoa_examples :
  map strconv.Itoa [0; 7; 42; 100; 7941; 65535; -5]
  = ["0"; "7"; "42"; "100"; "7941"; "65535"; "-5"].
Proof. reflexivity. Qed.

Example JoinHostPort_examples :
  net.JoinHostPort "10.0.0.1" "7941" = "10.0.0.1:7941" /\
  net.JoinHostPort "::1" "7941" = "[::1]:7941".
Proof. split; reflexivity. Qed.

Example Quote_examples :
  strconv.Quote (fun _ => false) "tchannel"
  = String (ascii_of_nat 34) ("tchannel" +:+ String (ascii_of_nat 34) "") /\
  strconv.Quote (fun _ => false) (String "a" (String (ascii_of_nat 10) "\"))
  = String (ascii_of_nat 34) ("a\n\\" +:+ String (ascii_of_nat 34) "").
Proof. split; vm_compute; reflexivity. Qed.

Example decimal_value_examples :
  decimal_value "7941" = Some 7941 /\ decimal_value "07941" = Some 7941 /\
  decimal_value "" = None /\ decimal_value "79x1" = None.
Proof. repeat split; reflexivity. Qed.

(** ** Strings *)

Lemma app_nil_l (s : string) : "" +:+ s = s.
Proof. reflexivity. Qed.

Lemma app_cons (c : ascii) (s t : string) :
  String c s +:+ t = String c (s +:+ t).
Proof. reflexivity. Qed.

Lemma string_app_assoc (a b c : string) : (a +:+ b) +:+ c = a +:+ (b +:+ c).
Proof.
  induction a as [|x a IH]; [reflexivity |].
  rewrite !app_cons. by rewrite IH.
Qed.

Lemma prefix_refl (p : string) : String.prefix p p = true.
Proof.
  induction p as [|x p IH]; simpl; [reflexivity |].
  destruct (ascii_dec x x); [exact IH | congruence].
Qed.

Lemma prefix_app (p s : string) : String.prefix p (p +:+ s) = true.
Proof.
  induction p as [|x p IH]; [by destruct s |].
  rewrite app_cons. simpl.
  destruct (ascii_dec x x); [exact IH | congruence].
Qed.

Lemma Contains_prefix (s p : string) :
  String.prefix p s = true -> gostring.Contains s p = true.
Proof.
  intros H.
  assert (Hunfold : gostring.Contains s p
                    = String.prefix p s ||
                      match s with
                      | EmptyString => false
                      | String _ s' => gostring.Contains s' p
                      end) by (destruct s; reflexivity).
  rewrite Hunfold, H. reflexivity.
Qed.

Lemma Contains_app_r (a s p : string) :
  gostring.Contains s p = true -> gostring.Contains (a +:+ s) p = true.
Proof.
  intros H. induction a as [|x a IH]; [exact H |].
  rewrite app_cons. simpl. rewrite IH. apply orb_true_r.
Qed.

(** A text contains each of the pieces it is concatenated from. *)
Lemma Contains_middle (a p b : string) :
  gostring.Contains (a +:+ p +:+ b) p = true.
Proof. apply Contains_app_r, Contains_prefix, prefix_app. Qed.

Lemma Contains_end (a p : string) : gostring.Contains (a +:+ p) p = true.
Proof. apply Contains_app_r, Contains_prefix, prefix_refl. Qed.

(** ** The decimal rendering of a port *)

Lemma digit_of_digits (r : Z) :
  0 <= r < 10 -> is_digit (gostring.at_ strconv.digits r) = true.
Proof.
  intros Hr.
  assert (Hcases : r = 0 \/ r = 1 \/ r = 2 \/ r = 3 \/ r = 4 \/ r = 5 \/
                   r = 6 \/ r = 7 \/ r = 8 \/ r = 9) by lia.
  repeat (destruct Hcases as [-> | Hcases]; [reflexivity |]).
  subst r. reflexivity.
Qed.

Lemma formatBits_digits (fuel : nat) :
  forall (u : Z) (acc : string),
    0 <= u -> all_digits acc = true ->
    all_digits (strconv.formatBits fuel u acc) = true.
Proof.
  induction fuel as [|fuel IH]; intros u acc Hu Hacc; simpl; [exact Hacc |].
  assert (Hacc' : all_digits (String (gostring.at_ strconv.digits (u mod 10)) acc)
                  = true).
  { simpl. rewrite Hacc, digit_of_digits; [reflexivity |].
    apply Z.mod_pos_bound. lia. }
  destruct (u <? 10); [exact Hacc' |].
  apply IH; [apply Z.div_pos; lia | exact Hacc'].
Qed.

(** The rendering of a port number consists of decimal digits. *)
Lemma Itoa_port_digits (n : N) : all_digits (strconv.Itoa (Z.of_N n)) = true.
Proof.
  unfold strconv.Itoa, strconv.FormatInt10.
  destruct (Z.ltb_spec (Z.of_N n) 0) as [Hneg | _]; [lia |].
  apply formatBits_digits; [lia | reflexivity].
Qed.

(** ** The loop of [Belongs] *)

Lemma Belongs_loop_true (port : string) (entries : list (string * N)) :
  Belongs_loop port entries = true <->
  exists name number,
    (name, number) ∈ entries /\ port = strconv.Itoa (Z.of_N number).
Proof.
  induction entries as [|[name number] rest IH]; simpl.
  - split; [discriminate |]. intros (? & ? & Hin & _). inversion Hin.
  - destruct (String.eqb_spec port (strconv.Itoa (Z.of_N number))) as [Heq | Hne].
    + split; [| reflexivity]. intros _. exists name, number.
      split; [constructor | exact Heq].
    + rewrite IH. split.
      * intros (name' & number' & Hin & Heq). exists name', number'.
        split; [by constructor | exact Heq].
      * intros (name' & number' & Hin & Heq).
        apply elem_of_cons in Hin as [Hhd | Htl].
        -- inversion Hhd; subst. contradiction.
        -- exists name', number'. split; assumption.
Qed.

(** The outcome of the loop does not depend on the order of the
    iteration. *)
Lemma Belongs_loop_Permutation (port : string) (l1 l2 : list (string * N)) :
  l1 ≡ₚ l2 -> Belongs_loop port l1 = Belongs_loop port l2.
Proof.
  intros Hperm.
  destruct (Belongs_loop port l1) eqn:H1, (Belongs_loop port l2) eqn:H2;
    try reflexivity.
  - apply Belongs_loop_true in H1 as (name & number & Hin & Heq).
    rewrite Hperm in Hin.
    assert (Belongs_loop port l2 = true) by (apply Belongs_loop_true; eauto).
    congruence.
  - apply Belongs_loop_true in H2 as (name & number & Hin & Heq).
    rewrite <- Hperm in Hin.
    assert (Belongs_loop port l1 = true) by (apply Belongs_loop_true; eauto).
    congruence.
Qed.

(** X6.  [Belongs] gives the same result for any two orders in which
    the iteration may visit the port table. *)
Lemma Belongs_order_irrelevant
  (order1 order2 : gmap string N -> list (string * N))
  (hi : HostInfo) (address : string) :
  (forall m, order1 m ≡ₚ map_to_list m) ->
  (forall m, order2 m ≡ₚ map_to_list m) ->
  Belongs order1 hi address = Belongs order2 hi address.
Proof.
  intros H1 H2. unfold Belongs.
  destruct (String.eqb (addr hi) address); [reflexivity |].
  destruct (net.SplitHostPort address) as [[host port] [e |]];
    [reflexivity |].
  destruct (negb (String.eqb host (ip hi))); [reflexivity |].
  rewrite (Belongs_loop_Permutation port (order1 (portMap hi))
             (order2 (portMap hi))); [reflexivity |].
  by rewrite H1, H2.
Qed.

(** ** [net.SplitHostPort] *)

(** With an error, host and port are the empty string. *)
Lemma SplitHostPort_error (hostport host port : string) (e : error) :
  net.SplitHostPort hostport = (host, port, Some e) ->
  host = "" /\ port = "".
Proof.
  unfold net.SplitHostPort, net.addrErr.
  repeat case_match; intros; simplify_eq; split; reflexivity.
Qed.

Lemma substring_all (s : string) : String.substring 0 (String.length s) s = s.
Proof. induction s as [|c s IH]; simpl; [reflexivity | by rewrite IH]. Qed.

Lemma index_from_digits (s : string) (c : ascii) :
  all_digits s = true -> is_digit c = false ->
  forall i, bytealg.index_from i s c = -1.
Proof.
  intros Hs Hc. induction s as [|b s IH]; intros i; simpl; [reflexivity |].
  simpl in Hs. apply andb_true_iff in Hs as [Hb Hs].
  destruct (Ascii.eqb_spec b c) as [-> | _]; [congruence | by apply IH].
Qed.

Lemma last_index_from_digits (s : string) (c : ascii) :
  all_digits s = true -> is_digit c = false ->
  forall i found, bytealg.last_index_from i s c found = found.
Proof.
  intros Hs Hc. induction s as [|b s IH]; intros i found; simpl;
    [reflexivity |].
  simpl in Hs. apply andb_true_iff in Hs as [Hb Hs].
  destruct (Ascii.eqb_spec b c) as [-> | _]; [congruence | by apply IH].
Qed.

(** A colon followed by digits parses, with the empty string for host. *)
Lemma SplitHostPort_colon_digits (port : string) :
  all_digits port = true ->
  net.SplitHostPort (String ":" port) = ("", port, None).
Proof.
  intros Hd.
  unfold net.SplitHostPort, bytealg.LastIndexByteString,
    bytealg.IndexByteString, gostring.slice_from, gostring.slice,
    gostring.len, gostring.at_.
  simpl bytealg.last_index_from.
  rewrite (last_index_from_digits port ":" Hd eq_refl).
  change (0 <? 0) with false. cbv iota.
  change (Z.to_nat 0) with 0%nat.
  change (String.get 0 (String ":" port)) with (Some ":"%char).
  change (Ascii.eqb ":" "[") with false. cbv iota.
  change (Z.to_nat (0 - 0)) with 0%nat.
  change (String.substring 0 0 (String ":" port)) with "".
  change (0 <=? bytealg.index_from 0 "" ":") with false. cbv iota.
  replace (Z.to_nat (Z.of_nat (String.length (String ":" port)) - 0))
    with (String.length (String ":" port)) by lia.
  rewrite substring_all.
  simpl bytealg.index_from.
  rewrite (index_from_digits port "[" Hd eq_refl).
  rewrite (index_from_digits port "]" Hd eq_refl).
  change (0 <=? -1) with false. cbv iota.
  replace (Z.to_nat (0 + 1)) with 1%nat by lia.
  replace (Z.to_nat (Z.of_nat (String.length (String ":" port)) - (0 + 1)))
    with (String.length port) by (simpl String.length; lia).
  simpl String.substring. rewrite substring_all. reflexivity.
Qed.

(** Where [LastIndexByteString] finds the byte, the string splits
    there. *)
Lemma last_index_from_split (c : ascii) (s : string) :
  forall (k found i : Z),
    bytealg.last_index_from k s c found = i -> i <> found ->
    exists d : nat,
      i = k + Z.of_nat d /\
      s = String.substring 0 d s +:+
          String c (String.substring (S d) (String.length s - S d) s).
Proof.
  induction s as [|b s IH]; intros k found i Hi Hne; simpl in Hi.
  - congruence.
  - destruct (Ascii.eqb_spec b c) as [-> | Hbc].
    + destruct (Z.eq_dec i k) as [-> | Hik].
      * exists 0%nat. split; [lia |].
        simpl. rewrite Nat.sub_0_r, substring_all. reflexivity.
      * destruct (IH (k + 1) k i Hi Hik) as (d & Hd & Hs).
        exists (S d). split; [lia |].
        simpl. rewrite app_cons. f_equal. exact Hs.
    + destruct (IH (k + 1) found i Hi Hne) as (d & Hd & Hs).
      exists (S d). split; [lia |].
      simpl. rewrite app_cons. f_equal. exact Hs.
Qed.

(** An address that parses and is not in the bracketed form is its host,
    a colon and its port. *)
Lemma SplitHostPort_unbracketed (hostport host port : string) :
  net.SplitHostPort hostport = (host, port, None) ->
  bracketed hostport = false ->
  hostport = host +:+ ":" +:+ port.
Proof.
  unfold bracketed. intros Hsplit Hb.
  unfold net.SplitHostPort, net.addrErr in Hsplit. rewrite Hb in Hsplit.
  destruct (Z.ltb_spec (bytealg.LastIndexByteString hostport ":") 0)
    as [_ | Hi]; [discriminate |].
  repeat case_match; simplify_eq.
  destruct (last_index_from_split ":" hostport 0 (-1)
              (bytealg.LastIndexByteString hostport ":") eq_refl)
    as (d & Hd & Hs); [lia |].
  rewrite Hd. unfold gostring.slice_from, gostring.slice, gostring.len.
  replace (Z.to_nat 0) with 0%nat by lia.
  replace (Z.to_nat (0 + Z.of_nat d - 0)) with d by lia.
  replace (Z.to_nat (0 + Z.of_nat d + 1)) with (S d) by lia.
  replace (Z.to_nat (Z.of_nat (String.length hostport) - (0 + Z.of_nat d + 1)))
    with (String.length hostport - S d)%nat by lia.
  exact Hs.
Qed.

(** ** [strconv.Quote] on plain names *)

Lemma byte_val_range (c : ascii) : 0 <= gostring.byte_val c < 256.
Proof.
  unfold gostring.byte_val. pose proof (N_ascii_bounded c). lia.
Qed.

Lemma byte_of_val (c : ascii) : gostring.byte_of (gostring.byte_val c) = c.
Proof.
  unfold gostring.byte_of. rewrite Z.mod_small by apply byte_val_range.
  unfold gostring.byte_val. rewrite N2Z.id. apply ascii_N_embedding.
Qed.

Lemma plain_byte_range (c : ascii) :
  plain_byte c = true ->
  0x20 <= gostring.byte_val c <= 0x7E /\
  gostring.byte_val c <> 34 /\ gostring.byte_val c <> 92.
Proof.
  unfold plain_byte. cbv zeta.
  rewrite !andb_true_iff, !negb_true_iff. intros [[[H1 H2] H3] H4].
  apply Z.leb_le in H1, H2. apply Z.eqb_neq in H3, H4. lia.
Qed.

Lemma appendEscapedRune_plain (tables : Z -> bool) (c : ascii) :
  plain_byte c = true ->
  strconv.appendEscapedRune tables (gostring.byte_val c) (ascii_of_nat 34)
  = String c "".
Proof.
  intros Hc. apply plain_byte_range in Hc as (Hr & Hq & Hb).
  unfold strconv.appendEscapedRune.
  change (gostring.byte_val (ascii_of_nat 34)) with 34.
  change (gostring.byte_val "\") with 92.
  destruct (Z.eqb_spec (gostring.byte_val c) 34) as [? | _]; [lia |].
  destruct (Z.eqb_spec (gostring.byte_val c) 92) as [? | _]; [lia |].
  cbv [orb]. unfold strconv.IsPrint.
  destruct (Z.leb_spec (gostring.byte_val c) 0xFF) as [_ | ?]; [| lia].
  destruct (Z.leb_spec 0x20 (gostring.byte_val c)) as [_ | ?]; [| lia].
  destruct (Z.leb_spec (gostring.byte_val c) 0x7E) as [_ | ?]; [| lia].
  cbv [andb]. unfold utf8.AppendRune. cbv zeta.
  rewrite (Z.mod_small (gostring.byte_val c) (2 ^ 32)) by lia.
  unfold utf8.rune1Max.
  destruct (Z.leb_spec (gostring.byte_val c) 0x7F) as [_ | ?]; [| lia].
  by rewrite byte_of_val.
Qed.

Lemma quoteLoop_plain (tables : Z -> bool) (s : string) :
  plain_name s = true ->
  strconv.quoteLoop tables s 0 (ascii_of_nat 34) = s.
Proof.
  induction s as [|c s IH]; intros Hs; [reflexivity |].
  simpl in Hs. apply andb_true_iff in Hs as [Hc Hs].
  pose proof (plain_byte_range c Hc) as (Hr & _ & _).
  cbn [strconv.quoteLoop]. unfold utf8.RuneSelf, utf8.RuneError.
  destruct (Z.ltb_spec (gostring.byte_val c) 0x80) as [_ | ?]; [| lia].
  change (1 =? 1) with true.
  destruct (Z.eqb_spec (gostring.byte_val c) 0xFFFD) as [? | _]; [lia |].
  cbv [andb]. rewrite appendEscapedRune_plain by exact Hc.
  change (Z.to_nat (1 - 1)) with 0%nat.
  rewrite IH by exact Hs. reflexivity.
Qed.

(** [%q] writes a plain name as it is, between double quotes. *)
Lemma Quote_plain (tables : Z -> bool) (s : string) :
  plain_name s = true ->
  strconv.Quote tables s
  = String (ascii_of_nat 34) (s +:+ String (ascii_of_nat 34) "").
Proof.
  intros Hs. unfold strconv.Quote, strconv.appendQuotedWith.
  by rewrite quoteLoop_plain.
Qed.

(** ** The rendering of a port denotes the port *)

Lemma digit_val (r : Z) :
  0 <= r < 10 -> gostring.byte_val (gostring.at_ strconv.digits r) = 48 + r.
Proof.
  intros Hr.
  assert (Hcases : r = 0 \/ r = 1 \/ r = 2 \/ r = 3 \/ r = 4 \/ r = 5 \/
                   r = 6 \/ r = 7 \/ r = 8 \/ r = 9) by lia.
  repeat (destruct Hcases as [-> | Hcases]; [reflexivity |]).
  subst r. reflexivity.
Qed.

Lemma app_nil_r (s : string) : s +:+ "" = s.
Proof.
  induction s as [|c s IH]; [reflexivity |]. rewrite app_cons. by rewrite IH.
Qed.

Lemma length_app (s t : string) :
  String.length (s +:+ t) = (String.length s + String.length t)%nat.
Proof.
  induction s as [|c s IH]; [reflexivity |].
  rewrite app_cons. simpl. by rewrite IH.
Qed.

Lemma decimal_value_from_app (s t : string) :
  forall acc,
    decimal_value_from acc (s +:+ t)
    = match decimal_value_from acc s with
      | Some v => decimal_value_from v t
      | None => None
      end.
Proof.
  induction s as [|c s IH]; intros acc; [reflexivity |].
  rewrite app_cons. simpl.
  destruct ((0 <=? gostring.byte_val c - 48) && (gostring.byte_val c - 48 <=? 9));
    [apply IH | reflexivity].
Qed.

Lemma decimal_value_from_digit (r acc : Z) :
  0 <= r < 10 ->
  decimal_value_from acc (String (gostring.at_ strconv.digits r) "")
  = Some (10 * acc + r).
Proof.
  intros Hr. simpl. rewrite digit_val by exact Hr.
  replace (48 + r - 48) with r by lia.
  destruct (Z.leb_spec 0 r); [| lia]. destruct (Z.leb_spec r 9); [| lia].
  reflexivity.
Qed.

(** [formatBits] puts in front of [acc] a non-empty string of digits
    that denotes [u], when the fuel covers the digits of [u]. *)
Lemma formatBits_value (fuel : nat) :
  forall (u : Z) (acc : string),
    (0 < fuel)%nat -> 0 <= u < 10 ^ Z.of_nat fuel ->
    exists s,
      strconv.formatBits fuel u acc = s +:+ acc /\ s <> "" /\
      forall a, decimal_value_from a s
                = Some (a * 10 ^ Z.of_nat (String.length s) + u).
Proof.
  induction fuel as [|fuel IH]; intros u acc Hfuel Hu; [lia |].
  cbn [strconv.formatBits].
  destruct (Z.ltb_spec u 10) as [Hsmall | Hbig].
  - exists (String (gostring.at_ strconv.digits (u mod 10)) "").
    split; [reflexivity |]. split; [discriminate |].
    intros a. rewrite decimal_value_from_digit by (apply Z.mod_pos_bound; lia).
    rewrite Z.mod_small by lia. f_equal. simpl String.length. lia.
  - assert (Hfuel' : (0 < fuel)%nat).
    { destruct fuel; [simpl in Hu; lia | lia]. }
    assert (Hdiv : 0 <= u / 10 < 10 ^ Z.of_nat fuel).
    { split; [apply Z.div_pos; lia |].
      apply Z.div_lt_upper_bound; [lia |].
      rewrite Nat2Z.inj_succ, Z.pow_succ_r in Hu by lia. lia. }
    destruct (IH (u / 10)
                (String (gostring.at_ strconv.digits (u mod 10)) acc)
                Hfuel' Hdiv) as (s & Hs & Hne & Hval).
    exists (s +:+ String (gostring.at_ strconv.digits (u mod 10)) "").
    split; [| split].
    + rewrite Hs, string_app_assoc. reflexivity.
    + destruct s; [congruence | rewrite app_cons; discriminate].
    + intros a. rewrite decimal_value_from_app, Hval.
      rewrite decimal_value_from_digit by (apply Z.mod_pos_bound; lia).
      f_equal. rewrite length_app. simpl String.length.
      rewrite Nat2Z.inj_add. change (Z.of_nat 1) with 1.
      rewrite Z.pow_add_r by lia. change (10 ^ 1) with 10.
      pose proof (Z.div_mod u 10). lia.
Qed.

(** Read numerically, the rendering of a port number is that number. *)
Lemma decimal_value_Itoa (n : N) :
  uint16_ok n -> decimal_value (strconv.Itoa (Z.of_N n)) = Some (Z.of_N n).
Proof.
  unfold uint16_ok. intros Hn.
  unfold strconv.Itoa, strconv.FormatInt10.
  destruct (Z.ltb_spec (Z.of_N n) 0) as [? | _]; [lia |].
  destruct (formatBits_value 20 (Z.of_N n) "") as (s & Hs & Hne & Hval).
  - lia.
  - change (10 ^ Z.of_nat 20) with 100000000000000000000. lia.
  - rewrite Hs, app_nil_r. unfold decimal_value.
    destruct s; [congruence |]. rewrite Hval. f_equal; lia.
Qed.

(** ** Constructors *)

Lemma NewDetailedHostInfo_fields (a id : string) (pm : gmap string N) :
  NewDetailedHostInfo a id pm
  = {| addr := a; ip := (net.SplitHostPort a).1.1; identity := id;
       portMap := pm |}.
Proof.
  unfold NewDetailedHostInfo.
  by destruct (net.SplitHostPort a) as [[h p] e].
Qed.

Lemma NewHostInfo_fields (a : string) :
  NewHostInfo a
  = {| addr := a; ip := (net.SplitHostPort a).1.1; identity := "";
       portMap := ∅ |}.
Proof.
  unfold NewHostInfo. by destruct (net.SplitHostPort a) as [[h p] e].
Qed.

(** ** Properties of the methods *)

Section Properties.

Variable rangeOrder : gmap string N -> list (string * N).
Hypothesis rangeOrder_perm : forall m, rangeOrder m ≡ₚ map_to_list m.
Variable isPrintTables : Z -> bool.

Lemma rangeOrder_lookup (m : gmap string N) (name : string) (number : N) :
  (name, number) ∈ rangeOrder m <-> m !! name = Some number.
Proof. rewrite rangeOrder_perm. apply elem_of_map_to_list. Qed.

Lemma Belongs_loop_lookup (port : string) (m : gmap string N) :
  Belongs_loop port (rangeOrder m) = true <->
  exists name number,
    m !! name = Some number /\ port = strconv.Itoa (Z.of_N number).
Proof.
  rewrite Belongs_loop_true.
  split; intros (name & number & H & Heq); exists name, number;
    (split; [by apply rangeOrder_lookup | exact Heq]).
Qed.

(** [Belongs] past its first test, on a candidate that parses. *)
Lemma Belongs_parsed (hi : HostInfo) (address host port : string) :
  address <> addr hi ->
  net.SplitHostPort address = (host, port, None) ->
  Belongs rangeOrder hi address
  = (String.eqb host (ip hi) &&
     Belongs_loop port (rangeOrder (portMap hi)), None).
Proof using Type.
  intros Hne Hsplit. unfold Belongs.
  destruct (String.eqb_spec (addr hi) address) as [Heq | _];
    [congruence |].
  rewrite Hsplit.
  destruct (String.eqb host (ip hi)); simpl; [| reflexivity].
  by destruct (Belongs_loop port (rangeOrder (portMap hi))).
Qed.

Lemma Belongs_exact (hi : HostInfo) :
  Belongs rangeOrder hi (addr hi) = (true, None).
Proof using Type. unfold Belongs. by rewrite String.eqb_refl. Qed.

(** C1 (as amended).  For a candidate that differs from the record's
    address, parses, and has the record's ip for host, [Belongs]
    returns no error and answers true exactly when the candidate's port
    string is the decimal rendering of some entry of the port table;
    the port of the primary address is not looked at.  When moreover
    the record's address parses with [ip] for host and neither address
    is in the bracketed form, the candidate's port cannot be the
    primary one, and the answer is true exactly when the port is the
    primary port or the rendering of some entry. *)
Theorem Belongs_same_host_listed_port
    (hi : HostInfo) (address host port : string) :
  address <> addr hi ->
  net.SplitHostPort address = (host, port, None) ->
  host = ip hi ->
  exists b : bool,
    Belongs rangeOrder hi address = (b, None) /\
    (b = true <->
     exists name number,
       portMap hi !! name = Some number /\
       port = strconv.Itoa (Z.of_N number)) /\
    (forall primary : string,
        net.SplitHostPort (addr hi) = (ip hi, primary, None) ->
        bracketed (addr hi) = false -> bracketed address = false ->
        (b = true <->
         port = primary \/
         exists name number,
           portMap hi !! name = Some number /\
           port = strconv.Itoa (Z.of_N number))).
Proof.
  intros Hne Hsplit Hhost.
  exists (Belongs_loop port (rangeOrder (portMap hi))).
  split; [| split].
  - rewrite (Belongs_parsed hi address host port Hne Hsplit).
    subst host. by rewrite String.eqb_refl.
  - apply Belongs_loop_lookup.
  - intros primary Hprimary Hb1 Hb2. rewrite Belongs_loop_lookup.
    split; [by right |]. intros [Heq | Hex]; [| exact Hex].
    exfalso. apply Hne.
    rewrite (SplitHostPort_unbracketed _ _ _ Hsplit Hb2).
    rewrite (SplitHostPort_unbracketed _ _ _ Hprimary Hb1).
    by subst.
Qed.

(** C2 (as amended).  The port of the candidate is compared as text
    with [strconv.Itoa] of each configured port.  For a candidate that
    parses, has the record's ip for host, and whose port string denotes
    a port number of the table, [Belongs] returns no error and answers
    true exactly when the candidate is the record's address itself or
    its port string is the canonical rendering of that number; any
    other spelling of the number gets false. *)
Theorem Belongs_port_compared_as_text
    (hi : HostInfo) (address host port name : string) (number : N) :
  net.SplitHostPort address = (host, port, None) ->
  host = ip hi ->
  portMap hi !! name = Some number ->
  decimal_value port = Some (Z.of_N number) ->
  map_Forall (fun _ number' => uint16_ok number') (portMap hi) ->
  exists b : bool,
    Belongs rangeOrder hi address = (b, None) /\
    (b = true <->
     address = addr hi \/ port = strconv.Itoa (Z.of_N number)).
Proof.
  intros Hsplit Hhost Hlookup Hvalue Hports.
  destruct (decide (address = addr hi)) as [-> | Hne].
  - exists true. split; [apply Belongs_exact |]. split; [by left | done].
  - exists (Belongs_loop port (rangeOrder (portMap hi))). split.
    + rewrite (Belongs_parsed hi address host port Hne Hsplit).
      subst host. by rewrite String.eqb_refl.
    + rewrite Belongs_loop_lookup. split.
      * intros (name' & number' & Hlookup' & Hport). right.
        pose proof (decimal_value_Itoa number' (Hports _ _ Hlookup')) as Hd.
        rewrite <- Hport, Hvalue in Hd.
        assert (number = number') by (apply N2Z.inj; congruence).
        by subst.
      * intros [? | Hport]; [contradiction |]. by exists name, number.
Qed.

(** C3.  A candidate that is the record's address, byte for byte,
    belongs to the record, whether or not it parses; so the record made
    from an address by either constructor has that address. *)
Theorem Belongs_exact_match
    (hi : HostInfo) (a id : string) (pm : gmap string N) :
  Belongs rangeOrder hi (addr hi) = (true, None) /\
  Belongs rangeOrder (NewHostInfo a) a = (true, None) /\
  Belongs rangeOrder (NewDetailedHostInfo a id pm) a = (true, None).
Proof using Type.
  split; [apply Belongs_exact |].
  split.
  - rewrite NewHostInfo_fields. apply (Belongs_exact (mkHostInfo a _ _ _)).
  - rewrite NewDetailedHostInfo_fields.
    apply (Belongs_exact (mkHostInfo a _ _ _)).
Qed.

(** C4.  A candidate that differs from the record's address and parses
    with a host other than the record's ip does not belong, whatever
    its port. *)
Theorem Belongs_other_host
    (hi : HostInfo) (address host port : string) :
  address <> addr hi ->
  net.SplitHostPort address = (host, port, None) ->
  host <> ip hi ->
  Belongs rangeOrder hi address = (false, None).
Proof using Type.
  intros Hne Hsplit Hhost.
  rewrite (Belongs_parsed hi address host port Hne Hsplit).
  by destruct (String.eqb_spec host (ip hi)).
Qed.

(** C5.  [Belongs] returns an error exactly when the candidate differs
    from the record's address and [net.SplitHostPort] fails on it; the
    error is the one [net.SplitHostPort] returned and comes with
    false. *)
Theorem Belongs_error_iff (hi : HostInfo) (address : string) :
  (forall e : error,
      (Belongs rangeOrder hi address).2 = Some e <->
      address <> addr hi /\ (net.SplitHostPort address).2 = Some e) /\
  (forall e : error,
      (Belongs rangeOrder hi address).2 = Some e ->
      Belongs rangeOrder hi address = (false, Some e)).
Proof using Type.
  unfold Belongs.
  destruct (String.eqb_spec (addr hi) address) as [Heq | Hne].
  - split; intros e; simpl; [| discriminate].
    split; [discriminate | intros [Hne _]; congruence].
  - destruct (net.SplitHostPort address) as [[host port] [e' |]]; simpl.
    + split; intros e; [| by intros [= ->]].
      split; [intros [= ->]; split; [congruence | reflexivity] | by intros [_ ?]].
    + assert (Hnil : forall b1 b2 : bool,
                 (if b1 then (false, None)
                  else if b2 then (true, None) else (false, @None error)).2
                 = None) by (by intros [] []).
      split; intros e; rewrite ?Hnil.
      * split; [discriminate | intros [_ ?]; discriminate].
      * intros Herr.
        destruct (negb (String.eqb host (ip hi))),
          (Belongs_loop port (rangeOrder (portMap hi))); discriminate.
Qed.

(** C10.  A record made from an address that does not parse has the
    empty string for ip, and every candidate that parses with an empty
    host and, for port, the decimal rendering of one of the ports of the
    record belongs to it; a colon followed by that rendering is such a
    candidate. *)
Theorem Belongs_unparsed_address_empty_host
    (a id name : string) (pm : gmap string N) (number : N) (e : error) :
  (net.SplitHostPort a).2 = Some e ->
  pm !! name = Some number ->
  ip (NewDetailedHostInfo a id pm) = "" /\
  net.SplitHostPort (String ":" (strconv.Itoa (Z.of_N number)))
  = ("", strconv.Itoa (Z.of_N number), None) /\
  (forall address : string,
      net.SplitHostPort address
      = ("", strconv.Itoa (Z.of_N number), None) ->
      Belongs rangeOrder (NewDetailedHostInfo a id pm) address
      = (true, None)).
Proof.
  intros Herr Hlookup.
  rewrite NewDetailedHostInfo_fields.
  destruct (net.SplitHostPort a) as [[h p] err] eqn:Ha.
  simpl in Herr. subst err.
  destruct (SplitHostPort_error _ _ _ _ Ha) as [-> ->]. simpl.
  split; [reflexivity |].
  split; [apply SplitHostPort_colon_digits, Itoa_port_digits |].
  intros address Hcand.
  assert (Hne : address <> a).
  { intros ->. rewrite Hcand in Ha. discriminate. }
  rewrite (Belongs_parsed (mkHostInfo a "" id pm) _ _ _ Hne Hcand). simpl.
  assert (Hloop : Belongs_loop (strconv.Itoa (Z.of_N number)) (rangeOrder pm)
                  = true).
  { apply Belongs_loop_lookup. by exists name, number. }
  by rewrite Hloop.
Qed.

(** C6 (as amended).  [GetNamedAddress] returns an error exactly when
    the name has no entry in the port table.  With an entry it returns
    [net.JoinHostPort] of the record's ip and the decimal rendering of
    the port, and no error.  Without one it returns the empty string
    and an error whose message is "port ", the name as [%q] writes it,
    " is not set for " and the record as its [String] method writes it
    (address, identity and port table); the message contains the name
    itself when the name is plain, that is made of printable ASCII
    other than the double quote and the backslash. *)
Theorem GetNamedAddress_spec (hi : HostInfo) (port : string) :
  ((GetNamedAddress rangeOrder isPrintTables hi port).2 <> None <->
   portMap hi !! port = None) /\
  (forall number : N,
      portMap hi !! port = Some number ->
      GetNamedAddress rangeOrder isPrintTables hi port
      = (net.JoinHostPort (ip hi) (strconv.Itoa (Z.of_N number)), None)) /\
  (portMap hi !! port = None ->
   exists (e : error) (msg : string),
     GetNamedAddress rangeOrder isPrintTables hi port = ("", Some e) /\
     Error e = msg /\
     msg = "port " +:+ strconv.Quote isPrintTables port +:+
           " is not set for " +:+ HostInfo_String rangeOrder hi /\
     gostring.Contains msg (strconv.Quote isPrintTables port) = true /\
     gostring.Contains msg (HostInfo_String rangeOrder hi) = true /\
     gostring.Contains (HostInfo_String rangeOrder hi) (addr hi) = true /\
     gostring.Contains (HostInfo_String rangeOrder hi) (identity hi) = true /\
     gostring.Contains (HostInfo_String rangeOrder hi)
       (PortMap_String rangeOrder (portMap hi)) = true /\
     (plain_name port = true -> gostring.Contains msg port = true)).
Proof using Type.
  unfold GetNamedAddress.
  destruct (portMap hi !! port) as [number |] eqn:Hlookup; cbn [snd].
  - split; [split; [congruence | discriminate] |].
    split; [by intros ? [= ->] | discriminate].
  - split; [split; [reflexivity | discriminate] |].
    split; [discriminate |]. intros _.
    eexists _, _. split; [reflexivity |]. split; [reflexivity |].
    split; [reflexivity |].
    unfold fmt.verb_q, HostInfo_String, fmt.verb_s.
    split; [apply Contains_middle |].
    split; [do 2 apply Contains_app_r; apply Contains_end |].
    split; [apply Contains_middle |].
    split; [do 2 apply Contains_app_r; apply Contains_middle |].
    split; [do 4 apply Contains_app_r; apply Contains_end |].
    intros Hplain. rewrite (Quote_plain _ _ Hplain).
    apply Contains_app_r.
    apply (Contains_app_r (String (ascii_of_nat 34) "")).
    rewrite string_app_assoc. apply Contains_prefix, prefix_app.
Qed.

(** C7.  [Identity] is the identity field when it is not empty and the
    address otherwise. *)
Theorem Identity_spec (hi : HostInfo) :
  (identity hi <> "" -> Identity hi = identity hi) /\
  (identity hi = "" -> Identity hi = addr hi) /\
  Identity (NewDetailedHostInfo "h:1" "" ∅) = "h:1" /\
  Identity (NewDetailedHostInfo "h:1" "node-A" ∅) = "node-A".
Proof using Type.
  unfold Identity. repeat split.
  - intros Hne. by destruct (String.eqb_spec (identity hi) "").
  - intros ->. reflexivity.
Qed.

(** C8.  Both constructors are total.  They store the address as
    given, so [GetAddress] returns it; the ip is the host
    [net.SplitHostPort] extracts from the address, and the empty string
    when it fails; [NewHostInfo] leaves identity and ports empty and
    [NewDetailedHostInfo] stores the ones it is given. *)
Theorem constructors_spec (a id : string) (pm : gmap string N) :
  (GetAddress (NewHostInfo a) = a /\
   identity (NewHostInfo a) = "" /\ portMap (NewHostInfo a) = ∅) /\
  (GetAddress (NewDetailedHostInfo a id pm) = a /\
   identity (NewDetailedHostInfo a id pm) = id /\
   portMap (NewDetailedHostInfo a id pm) = pm) /\
  (forall host port : string,
      net.SplitHostPort a = (host, port, None) ->
      ip (NewHostInfo a) = host /\
      ip (NewDetailedHostInfo a id pm) = host) /\
  (forall e : error,
      (net.SplitHostPort a).2 = Some e ->
      ip (NewHostInfo a) = "" /\ ip (NewDetailedHostInfo a id pm) = "").
Proof using Type.
  rewrite NewHostInfo_fields, NewDetailedHostInfo_fields.
  unfold GetAddress. simpl.
  split; [done |]. split; [done |]. split.
  - by intros host port ->.
  - intros e He.
    destruct (net.SplitHostPort a) as [[h p] err] eqn:Ha.
    simpl in He. subst err.
    by destruct (SplitHostPort_error _ _ _ _ Ha) as [-> _].
Qed.

(** Each body returns what the method returns on the record its
    receiver stands for, and leaves its receiver and the heap as they
    were. *)
Lemma PortMap_String_body_spec
    (m : option nat) (v : HostInfoValue) (heap : gmap nat (gmap string N)) :
  PortMap_String_body rangeOrder m (v, heap)
  = (PortMap_String rangeOrder (deref heap m), (v, heap)).
Proof using Type. reflexivity. Qed.

Lemma HostInfo_String_body_spec
    (v : HostInfoValue) (heap : gmap nat (gmap string N)) :
  HostInfo_String_body rangeOrder (v, heap)
  = (HostInfo_String rangeOrder (contents heap v), (v, heap)).
Proof using Type. reflexivity. Qed.

Lemma GetAddress_body_spec
    (v : HostInfoValue) (heap : gmap nat (gmap string N)) :
  GetAddress_body (v, heap) = (GetAddress (contents heap v), (v, heap)).
Proof using Type. reflexivity. Qed.

Lemma GetNamedAddress_body_spec
    (port : string) (v : HostInfoValue) (heap : gmap nat (gmap string N)) :
  GetNamedAddress_body rangeOrder isPrintTables port (v, heap)
  = (GetNamedAddress rangeOrder isPrintTables (contents heap v) port,
     (v, heap)).
Proof using Type.
  unfold GetNamedAddress_body, GetNamedAddress, bind, receiver, map_read,
    call, ret.
  cbn [fst snd contents portMap ip].
  destruct (deref heap (val_portMap v) !! port); [reflexivity |].
  by rewrite HostInfo_String_body_spec.
Qed.

Lemma Belongs_body_spec
    (address : string) (v : HostInfoValue)
    (heap : gmap nat (gmap string N)) :
  Belongs_body rangeOrder address (v, heap)
  = (Belongs rangeOrder (contents heap v) address, (v, heap)).
Proof using Type.
  unfold Belongs_body, Belongs, range, bind, receiver, map_read, ret.
  cbn [fst snd contents portMap ip addr].
  destruct (String.eqb (val_addr v) address); [reflexivity |].
  destruct (net.SplitHostPort address) as [[host port] [e |]];
    [reflexivity |].
  destruct (negb (String.eqb host (val_ip v))); [reflexivity |].
  change ((v, heap).2) with heap.
  by destruct (Belongs_loop port (rangeOrder (deref heap (val_portMap v)))).
Qed.

Lemma Identity_body_spec
    (v : HostInfoValue) (heap : gmap nat (gmap string N)) :
  Identity_body (v, heap) = (Identity (contents heap v), (v, heap)).
Proof using Type.
  unfold Identity_body, Identity, bind, receiver, ret.
  cbn [fst snd contents identity addr].
  by destruct (String.eqb (val_identity v) "").
Qed.

(** A call returns what the method returns on the record, and leaves
    the heap as it was. *)
Lemma invoke_spec
    (v : HostInfoValue) (heap : gmap nat (gmap string N)) (c : Call) :
  invoke rangeOrder isPrintTables v heap c
  = (result_of rangeOrder isPrintTables (contents heap v) c, heap).
Proof using Type.
  destruct c; unfold invoke, result_of.
  - by rewrite GetAddress_body_spec.
  - rewrite GetNamedAddress_body_spec.
    by destruct (GetNamedAddress _ _ _ _).
  - rewrite Belongs_body_spec. by destruct (Belongs _ _ _).
  - by rewrite Identity_body_spec.
  - reflexivity.
  - reflexivity.
  - by rewrite HostInfo_String_body_spec.
Qed.

Lemma run_spec (v : HostInfoValue) (calls : list Call) :
  forall heap : gmap nat (gmap string N),
    run rangeOrder isPrintTables v heap calls = heap.
Proof using Type.
  induction calls as [|c calls IH]; intros heap; simpl; [reflexivity |].
  by rewrite invoke_spec, IH.
Qed.

(** The variables the constructors fill stand for the records the
    constructors make. *)
Lemma contents_NewDetailedHostInfo_value
    (heap : gmap nat (gmap string N)) (a id : string) (m : option nat) :
  contents heap (NewDetailedHostInfo_value a id m)
  = NewDetailedHostInfo a id (deref heap m).
Proof using Type.
  unfold NewDetailedHostInfo_value, NewDetailedHostInfo, contents.
  by destruct (net.SplitHostPort a) as [[h p] e].
Qed.

Lemma contents_NewHostInfo_value
    (heap : gmap nat (gmap string N)) (a : string) :
  contents heap (NewHostInfo_value a) = NewHostInfo a.
Proof using Type.
  unfold NewHostInfo_value, NewHostInfo, contents.
  by destruct (net.SplitHostPort a) as [[h p] e].
Qed.

(** C9.  [Label] answers the empty string and false, and [SetLabel]
    does nothing: after any sequence of calls on a record, [SetLabel]
    included, the heap is the one before them, so that the record has
    the address, ip, identity and port table it had; [Label] still
    answers the empty string and false, and a further call of any method
    leaves the heap as it is.  In particular the record a constructor
    made is, after the calls, the record the constructor made. *)
Theorem Label_SetLabel_noop
    (v : HostInfoValue) (heap : gmap nat (gmap string N))
    (calls : list Call) (key value : string) (c : Call)
    (a id : string) (m : option nat) :
  let heap' := run rangeOrder isPrintTables v heap calls in
  (v = NewDetailedHostInfo_value a id m ->
   contents heap' v = NewDetailedHostInfo a id (deref heap m)) /\
  (v = NewHostInfo_value a -> contents heap' v = NewHostInfo a) /\
  invoke rangeOrder isPrintTables v heap' (CallLabel key)
  = (RetStringBool "" false, heap') /\
  invoke rangeOrder isPrintTables v heap' (CallSetLabel key value)
  = (RetNothing, heap') /\
  (invoke rangeOrder isPrintTables v heap' c).2 = heap' /\
  heap' = heap /\
  addr (contents heap' v) = addr (contents heap v) /\
  ip (contents heap' v) = ip (contents heap v) /\
  identity (contents heap' v) = identity (contents heap v) /\
  portMap (contents heap' v) = portMap (contents heap v) /\
  Label (contents heap' v) key = ("", false).
Proof using Type.
  cbv zeta. rewrite run_spec.
  split; [intros ->; apply contents_NewDetailedHostInfo_value |].
  split; [intros ->; apply contents_NewHostInfo_value |].
  split; [reflexivity |]. split; [reflexivity |].
  split; [by rewrite invoke_spec |]. done.
Qed.

(** A body that stores into the port table would show: the store is
    seen through every variable that holds the record. *)
Lemma map_store_seen
    (v : HostInfoValue) (heap : gmap nat (gmap string N))
    (l : nat) (key : string) (number : N) :
  val_portMap v = Some l ->
  portMap (contents (map_store l key number (v, heap)).2.2 v) !! key
  = Some number.
Proof using Type.
  intros Hl. unfold contents, map_store, deref. cbn [portMap snd fst].
  rewrite Hl, lookup_insert_eq. cbn [default]. apply lookup_insert_eq.
Qed.

End Properties.

(** ** The methods on the example records

    The iteration order is that of [map_to_list]; the answers of
    [Belongs] are the same for any other. *)

Lemma map_to_list_order (m : gmap string N) :
  map_to_list m ≡ₚ map_to_list m.
Proof. reflexivity. Defined.

Example example_host_fields :
  addr example_host = "10.0.0.1:7933" /\ ip example_host = "10.0.0.1" /\
  identity example_host = "" /\ portMap example_host = example_ports.
Proof. repeat split; vm_compute; reflexivity. Qed.

Example GetNamedAddress_examples :
  GetNamedAddress map_to_list no_tables example_host "grpc"
  = ("10.0.0.1:7941", None) /\
  GetNamedAddress map_to_list no_tables example_host "tchannel"
  = ("", Some (errorString
                 ("port " +:+ String dquote ("tchannel" +:+ String dquote
                  " is not set for addr: 10.0.0.1:7933, identity: , portMap: grpc:7941")))).
Proof. split; vm_compute; reflexivity. Qed.

Example Belongs_examples :
  map (Belongs map_to_list example_host)
    ["10.0.0.1:7933"; "10.0.0.1:7941"; "10.0.0.1:9999"; "10.0.0.2:7933";
     "not-an-address"]
  = [(true, None); (true, None); (false, None); (false, None);
     (false, Some (AddrError "missing port in address" "not-an-address"))].
Proof. vm_compute. reflexivity. Qed.

(** *** C1 *)

(** C1, counterexample.  The record has address "10.0.0.1:7933"; the
    candidate "[10.0.0.1]:7933" is another string, parses, has the
    record's ip for host and the port of the primary address, and
    [Belongs] answers false. *)
Lemma Belongs_primary_port_not_matched :
  net.SplitHostPort (addr example_host) = ("10.0.0.1", "7933", None) /\
  "[10.0.0.1]:7933" <> addr example_host /\
  net.SplitHostPort "[10.0.0.1]:7933" = (ip example_host, "7933", None) /\
  Belongs map_to_list example_host "[10.0.0.1]:7933" = (false, None).
Proof.
  split; [vm_compute; reflexivity |].
  split; [vm_compute; discriminate |].
  split; vm_compute; reflexivity.
Qed.

Lemma Belongs_same_host_listed_port_witness :
  exists b : bool,
    Belongs map_to_list example_host "10.0.0.1:7941" = (b, None) /\
    (b = true <->
     exists name number,
       portMap example_host !! name = Some number /\
       "7941" = strconv.Itoa (Z.of_N number)) /\
    (forall primary : string,
        net.SplitHostPort (addr example_host)
        = (ip example_host, primary, None) ->
        bracketed (addr example_host) = false ->
        bracketed "10.0.0.1:7941" = false ->
        (b = true <->
         "7941" = primary \/
         exists name number,
           portMap example_host !! name = Some number /\
           "7941" = strconv.Itoa (Z.of_N number))).
Proof.
  apply (Belongs_same_host_listed_port map_to_list map_to_list_order
           example_host "10.0.0.1:7941" "10.0.0.1" "7941").
  - vm_compute. discriminate.
  - vm_compute. reflexivity.
  - vm_compute. reflexivity.
Defined.

(** *** C2 *)

(** C2, counterexample.  The candidate "10.0.0.1:07941" has the record's
    ip for host and a port string that denotes 7941, the grpc port of the
    record; [Belongs] answers false. *)
Lemma Belongs_leading_zero_not_matched :
  net.SplitHostPort "10.0.0.1:07941" = (ip example_host, "07941", None) /\
  decimal_value "07941" = Some 7941 /\
  portMap example_host !! "grpc" = Some 7941%N /\
  Belongs map_to_list example_host "10.0.0.1:07941" = (false, None).
Proof. repeat split; vm_compute; reflexivity. Qed.

Lemma Belongs_port_compared_as_text_witness :
  exists b : bool,
    Belongs map_to_list example_host "10.0.0.1:7941" = (b, None) /\
    (b = true <->
     "10.0.0.1:7941" = addr example_host \/
     "7941" = strconv.Itoa (Z.of_N 7941)).
Proof.
  apply (Belongs_port_compared_as_text map_to_list map_to_list_order
           example_host "10.0.0.1:7941" "10.0.0.1" "7941" "grpc" 7941%N).
  - vm_compute. reflexivity.
  - vm_compute. reflexivity.
  - vm_compute. reflexivity.
  - vm_compute. reflexivity.
  - apply (bool_decide_unpack _). vm_compute. reflexivity.
Defined.

(** *** C4 *)

Lemma Belongs_other_host_witness :
  Belongs map_to_list example_host "10.0.0.2:7941" = (false, None).
Proof.
  apply (Belongs_other_host map_to_list example_host
           "10.0.0.2:7941" "10.0.0.2" "7941").
  - vm_compute. discriminate.
  - vm_compute. reflexivity.
  - vm_compute. discriminate.
Defined.

(** *** C6 *)

(** C6, counterexample.  [quoted_name] has no entry in the port table of
    the record, and the message of the error, [quoted_name_message],
    does not contain it: the name is there with a backslash in it. *)
Lemma GetNamedAddress_message_without_name :
  portMap example_host !! quoted_name = None /\
  GetNamedAddress map_to_list no_tables example_host quoted_name
  = ("", Some (errorString quoted_name_message)) /\
  Error (errorString quoted_name_message) = quoted_name_message /\
  gostring.Contains quoted_name_message quoted_name = false.
Proof. repeat split; vm_compute; reflexivity. Qed.

(** *** C9 *)

Example calls_on_example_value :
  contents example_heap example_value = example_host /\
  invoke map_to_list no_tables example_value example_heap
    (CallSetLabel "zone" "a")
  = (RetNothing, example_heap) /\
  invoke map_to_list no_tables example_value example_heap (CallLabel "zone")
  = (RetStringBool "" false, example_heap) /\
  invoke map_to_list no_tables example_value example_heap
    (CallBelongs "10.0.0.1:7941")
  = (RetBoolError true None, example_heap) /\
  run map_to_list no_tables example_value example_heap
    [CallSetLabel "zone" "a"; CallGetNamedAddress "grpc"; CallString;
     CallBelongs "nowhere"; CallIdentity; CallGetAddress]
  = example_heap.
Proof. repeat split; vm_compute; reflexivity. Qed.

(** *** C10 *)

Lemma Belongs_unparsed_address_empty_host_witness :
  ip unparsed_host = "" /\
  net.SplitHostPort (String ":" (strconv.Itoa (Z.of_N 7941)))
  = ("", strconv.Itoa (Z.of_N 7941), None) /\
  (forall address : string,
      net.SplitHostPort address
      = ("", strconv.Itoa (Z.of_N 7941), None) ->
      Belongs map_to_list unparsed_host address = (true, None)).
Proof.
  apply (Belongs_unparsed_address_empty_host map_to_list map_to_list_order
           "not-an-address" "" "grpc" example_ports 7941%N
           (AddrError "missing port in address" "not-an-address")).
  - vm_compute. reflexivity.
  - vm_compute. reflexivity.
Defined.

(** The candidates ":7941" and "[]:7941" both have an empty host. *)
Example Belongs_unparsed_address_example :
  net.SplitHostPort ":7941" = ("", "7941", None) /\
  net.SplitHostPort "[]:7941" = ("", "7941", None) /\
  Belongs map_to_list unparsed_host ":7941" = (true, None) /\
  Belongs map_to_list unparsed_host "[]:7941" = (true, None) /\
  Belongs map_to_list unparsed_host ":9999" = (false, None) /\
  Belongs map_to_list unparsed_host "10.0.0.1:7941" = (false, None).
Proof. repeat split; vm_compute; reflexivity. Qed.


(** * Further properties of the package *)

(** ** Bytes in strings *)

Lemma len_nonneg (s : string) : 0 <= gostring.len s.
Proof. unfold gostring.len. lia. Qed.

Lemma len_app (a b : string) :
  gostring.len (a +:+ b) = gostring.len a + gostring.len b.
Proof. unfold gostring.len. rewrite length_app. lia. Qed.

Lemma occurs_app (c : ascii) (a b : string) :
  occurs c (a +:+ b) = occurs c a || occurs c b.
Proof.
  induction a as [|x a IH]; [reflexivity |].
  rewrite app_cons. simpl. rewrite IH. apply orb_assoc.
Qed.

Lemma digits_not_occurs (c : ascii) (s : string) :
  all_digits s = true -> is_digit c = false -> occurs c s = false.
Proof.
  intros Hs Hc. induction s as [|b s IH]; [reflexivity |].
  simpl in Hs. apply andb_true_iff in Hs as [Hb Hs]. simpl.
  rewrite (IH Hs), orb_false_r.
  destruct (Ascii.eqb_spec b c) as [-> | _]; [congruence | reflexivity].
Qed.

Lemma index_from_absent (c : ascii) (s : string) :
  occurs c s = false -> forall i, bytealg.index_from i s c = -1.
Proof.
  induction s as [|b s IH]; intros H i; [reflexivity |].
  simpl in H. apply orb_false_iff in H as [Hb Hs]. simpl.
  rewrite Hb. by apply IH.
Qed.

Lemma index_from_present (c : ascii) (s : string) :
  occurs c s = true ->
  forall i, i <= bytealg.index_from i s c < i + gostring.len s.
Proof.
  unfold gostring.len.
  induction s as [|b s IH]; intros H i; [discriminate |].
  simpl in H. simpl bytealg.index_from. simpl String.length.
  destruct (Ascii.eqb b c); [lia |].
  specialize (IH H (i + 1)). lia.
Qed.

(** The test [IndexByteString(s, c) >= 0] tells whether [c] occurs. *)
Lemma IndexByteString_test (c : ascii) (s : string) :
  (0 <=? bytealg.IndexByteString s c) = occurs c s.
Proof.
  unfold bytealg.IndexByteString.
  destruct (occurs c s) eqn:H.
  - pose proof (index_from_present c s H 0). apply Z.leb_le. lia.
  - by rewrite index_from_absent.
Qed.

Lemma index_from_app (c : ascii) (a b : string) :
  forall i,
    bytealg.index_from i (a +:+ b) c
    = if occurs c a then bytealg.index_from i a c
      else bytealg.index_from (i + gostring.len a) b c.
Proof.
  unfold gostring.len.
  induction a as [|x a IH]; intros i.
  - simpl. f_equal. lia.
  - rewrite app_cons. simpl. destruct (Ascii.eqb x c); [reflexivity |].
    simpl. rewrite IH. destruct (occurs c a); [reflexivity |].
    f_equal. lia.
Qed.

Lemma last_index_from_app (c : ascii) (a b : string) :
  forall i found,
    bytealg.last_index_from i (a +:+ b) c found
    = bytealg.last_index_from (i + gostring.len a) b c
        (bytealg.last_index_from i a c found).
Proof.
  unfold gostring.len.
  induction a as [|x a IH]; intros i found.
  - simpl. f_equal. lia.
  - rewrite app_cons. simpl. rewrite IH. f_equal. lia.
Qed.

Lemma last_index_from_absent (c : ascii) (s : string) :
  occurs c s = false ->
  forall i found, bytealg.last_index_from i s c found = found.
Proof.
  induction s as [|b s IH]; intros H i found; [reflexivity |].
  simpl in H. apply orb_false_iff in H as [Hb Hs]. simpl.
  rewrite Hb. by apply IH.
Qed.

Lemma substring_app_l (a b : string) :
  String.substring 0 (String.length a) (a +:+ b) = a.
Proof.
  induction a as [|x a IH]; [by destruct b |].
  rewrite app_cons. simpl. by rewrite IH.
Qed.

Lemma substring_app_r (a b : string) (n : nat) :
  String.substring (String.length a) n (a +:+ b) = String.substring 0 n b.
Proof.
  induction a as [|x a IH]; [reflexivity |].
  rewrite app_cons. simpl. exact IH.
Qed.

Lemma occurs_substring (c : ascii) (s : string) :
  forall n m, occurs c (String.substring n m s) = true -> occurs c s = true.
Proof.
  induction s as [|b s IH]; intros n m H.
  - by destruct n, m.
  - destruct n as [|n]; simpl in H.
    + destruct m as [|m]; [discriminate |]. simpl in H. simpl.
      destruct (Ascii.eqb b c); [reflexivity |]. simpl in *. by eapply IH.
    + simpl. rewrite (IH _ _ H). apply orb_true_r.
Qed.

(** Before the index [IndexByteString] returns, the byte does not
    occur. *)
Lemma index_from_prefix (c : ascii) (s : string) :
  forall (i : Z) (e : nat),
    bytealg.index_from i s c = i + Z.of_nat e ->
    occurs c (String.substring 0 e s) = false.
Proof.
  induction s as [|b s IH]; intros i e H.
  - by destruct e.
  - simpl in H. destruct e as [|e]; [reflexivity |].
    destruct (Ascii.eqb b c) eqn:Hb; [lia |].
    simpl. rewrite Hb. simpl. apply (IH (i + 1)). lia.
Qed.

(** ** Slices and indices of a concatenation *)

Lemma slice_middle (s a b c : string) (lo hi : Z) :
  s = a +:+ b +:+ c -> lo = gostring.len a ->
  hi = gostring.len a + gostring.len b ->
  gostring.slice s lo hi = b.
Proof.
  intros -> -> ->. unfold gostring.slice, gostring.len.
  replace (Z.to_nat (Z.of_nat (String.length a) + Z.of_nat (String.length b)
                     - Z.of_nat (String.length a)))
    with (String.length b) by lia.
  rewrite Nat2Z.id, substring_app_r. apply substring_app_l.
Qed.

Lemma slice_from_suffix (s a b : string) (lo : Z) :
  s = a +:+ b -> lo = gostring.len a -> gostring.slice_from s lo = b.
Proof.
  intros -> ->. unfold gostring.slice_from, gostring.slice.
  rewrite len_app. unfold gostring.len.
  replace (Z.to_nat (Z.of_nat (String.length a) + Z.of_nat (String.length b)
                     - Z.of_nat (String.length a)))
    with (String.length b) by lia.
  rewrite Nat2Z.id, substring_app_r. apply substring_all.
Qed.

Lemma IndexByteString_at (s a b : string) (c : ascii) :
  s = a +:+ String c b -> occurs c a = false ->
  bytealg.IndexByteString s c = gostring.len a.
Proof.
  intros -> Ha. unfold bytealg.IndexByteString.
  rewrite index_from_app, Ha. simpl. by rewrite Ascii.eqb_refl.
Qed.

Lemma LastIndexByteString_at (s a b : string) (c : ascii) :
  s = a +:+ String c b -> occurs c b = false ->
  bytealg.LastIndexByteString s c = gostring.len a.
Proof.
  intros -> Hb. unfold bytealg.LastIndexByteString.
  rewrite last_index_from_app. simpl. rewrite Ascii.eqb_refl.
  rewrite (last_index_from_absent c b Hb). lia.
Qed.

(** The first byte of a string in which [c] does not occur is not [c]
    (nor is the zero byte that stands for the first byte of the empty
    string). *)
Lemma at_0_not (s : string) (c : ascii) :
  occurs c s = false -> Ascii.eqb Ascii.zero c = false ->
  Ascii.eqb (gostring.at_ s 0) c = false.
Proof.
  intros Hs Hz. destruct s as [|b s]; [exact Hz |].
  simpl in Hs. apply orb_false_iff in Hs as [Hb _]. exact Hb.
Qed.

(** ** [net.SplitHostPort] after [net.JoinHostPort] *)

Lemma SplitHostPort_join_plain (h p : string) :
  occurs ":" h = false -> occurs "[" h = false -> occurs "]" h = false ->
  occurs ":" p = false -> occurs "[" p = false -> occurs "]" p = false ->
  net.SplitHostPort (h +:+ ":" +:+ p) = (h, p, None).
Proof.
  intros Hh1 Hh2 Hh3 Hp1 Hp2 Hp3.
  set (s := h +:+ ":" +:+ p).
  assert (Hi : bytealg.LastIndexByteString s ":" = gostring.len h)
    by (by apply (LastIndexByteString_at s h p)).
  assert (Hocc : forall c, occurs c h = false -> occurs c p = false ->
                           Ascii.eqb ":" c = false -> occurs c s = false).
  { intros c H1 H2 H3. unfold s. rewrite occurs_app, H1.
    change (":" +:+ p) with (String ":" p). cbn [occurs orb].
    by rewrite H3, H2. }
  unfold net.SplitHostPort. cbv beta zeta. fold s. rewrite Hi.
  destruct (Z.ltb_spec (gostring.len h) 0) as [Hneg | _];
    [pose proof (len_nonneg h); lia |].
  rewrite (at_0_not s "[") by (by apply Hocc || reflexivity).
  rewrite (slice_middle s "" h (":" +:+ p) 0 (gostring.len h))
    by (reflexivity || (unfold gostring.len; simpl; lia)).
  rewrite IndexByteString_test, Hh1.
  rewrite (slice_from_suffix s "" s 0) by reflexivity.
  rewrite !IndexByteString_test, !Hocc by done.
  rewrite (slice_from_suffix s (h +:+ ":") p)
    by (by unfold s; rewrite string_app_assoc
        || (rewrite len_app; reflexivity)).
  reflexivity.
Qed.

Lemma SplitHostPort_join_bracket (h p : string) :
  occurs "[" h = false -> occurs "]" h = false ->
  occurs ":" p = false -> occurs "[" p = false -> occurs "]" p = false ->
  net.SplitHostPort ("[" +:+ h +:+ "]:" +:+ p) = (h, p, None).
Proof.
  intros Hh2 Hh3 Hp1 Hp2 Hp3.
  set (s := "[" +:+ h +:+ "]:" +:+ p).
  assert (Hs1 : s = ("[" +:+ h +:+ "]") +:+ String ":" p).
  { unfold s. by rewrite !string_app_assoc. }
  assert (Hs2 : s = ("[" +:+ h) +:+ String "]" (":" +:+ p)).
  { unfold s. by rewrite !string_app_assoc. }
  assert (Hlen1 : gostring.len ("[" +:+ h) = gostring.len h + 1).
  { rewrite len_app. unfold gostring.len. simpl. lia. }
  assert (Hlen2 : gostring.len ("[" +:+ h +:+ "]") = gostring.len h + 2).
  { rewrite !len_app. unfold gostring.len. simpl. lia. }
  assert (Hlen : gostring.len s = gostring.len h + 3 + gostring.len p).
  { rewrite Hs1, len_app, Hlen2. unfold gostring.len. simpl String.length.
    lia. }
  assert (Hi : bytealg.LastIndexByteString s ":" = gostring.len h + 2).
  { rewrite <- Hlen2. by apply (LastIndexByteString_at s _ p). }
  assert (Hend : bytealg.IndexByteString s "]" = gostring.len h + 1).
  { rewrite <- Hlen1. apply (IndexByteString_at s _ (":" +:+ p)); [exact Hs2 |].
    rewrite occurs_app, Hh3. reflexivity. }
  pose proof (len_nonneg h) as Hh0. pose proof (len_nonneg p) as Hp0.
  unfold net.SplitHostPort. cbv beta zeta. fold s. rewrite Hi, Hend.
  destruct (Z.ltb_spec (gostring.len h + 2) 0) as [? | _]; [lia |].
  change (Ascii.eqb (gostring.at_ s 0) "[") with true. cbv iota.
  destruct (Z.ltb_spec (gostring.len h + 1) 0) as [? | _]; [lia |].
  destruct (Z.eqb_spec (gostring.len h + 1 + 1) (gostring.len s)) as [? | _];
    [lia |].
  destruct (Z.eqb_spec (gostring.len h + 1 + 1) (gostring.len h + 2))
    as [_ | ?]; [| lia].
  rewrite (slice_middle s "[" h ("]:" +:+ p) 1 (gostring.len h + 1))
    by (reflexivity || (unfold gostring.len; simpl; lia)).
  rewrite (slice_from_suffix s "[" (h +:+ "]:" +:+ p) 1) by reflexivity.
  rewrite IndexByteString_test.
  assert (Hb1 : occurs "[" (h +:+ "]:" +:+ p) = false).
  { rewrite occurs_app, Hh2. change ("]:" +:+ p) with (String "]" (String ":" p)).
    simpl. exact Hp2. }
  rewrite Hb1.
  rewrite (slice_from_suffix s ("[" +:+ h +:+ "]") (String ":" p)
             (gostring.len h + 1 + 1)) by (exact Hs1 || lia).
  rewrite IndexByteString_test.
  change (occurs "]" (String ":" p)) with (occurs "]" p). rewrite Hp3.
  rewrite (slice_from_suffix s ("[" +:+ h +:+ "]:") p)
    by (by unfold s; rewrite !string_app_assoc
        || (rewrite <- Hlen2, !len_app; unfold gostring.len; simpl; lia)).
  reflexivity.
Qed.

(** An address made by [net.JoinHostPort] from a host without brackets
    and a port without colon or brackets splits into that host and that
    port. *)
Lemma SplitHostPort_JoinHostPort (h p : string) :
  occurs "[" h = false -> occurs "]" h = false ->
  occurs ":" p = false -> occurs "[" p = false -> occurs "]" p = false ->
  net.SplitHostPort (net.JoinHostPort h p) = (h, p, None).
Proof.
  intros Hh2 Hh3 Hp1 Hp2 Hp3. unfold net.JoinHostPort.
  rewrite IndexByteString_test.
  destruct (occurs ":" h) eqn:Hh1.
  - by apply SplitHostPort_join_bracket.
  - by apply SplitHostPort_join_plain.
Qed.

(** ** The host [net.SplitHostPort] returns *)

Lemma slice_from_0 (s : string) : gostring.slice_from s 0 = s.
Proof. by apply (slice_from_suffix s "" s). Qed.

Lemma not_occurs_substring (c : ascii) (s : string) (n m : nat) :
  occurs c s = false -> occurs c (String.substring n m s) = false.
Proof.
  intros Hs. destruct (occurs c (String.substring n m s)) eqn:H;
    [| reflexivity].
  apply occurs_substring in H. congruence.
Qed.

(** The host has no bracket in it, and no colon either when the address
    is not in the bracketed form. *)
Lemma SplitHostPort_host (hostport host port : string) (err : option error) :
  net.SplitHostPort hostport = (host, port, err) ->
  occurs "[" host = false /\ occurs "]" host = false /\
  (bracketed hostport = false -> occurs ":" host = false).
Proof.
  unfold net.SplitHostPort, net.addrErr, bracketed. cbv beta zeta.
  rewrite !IndexByteString_test.
  destruct (bytealg.LastIndexByteString hostport ":" <? 0);
    [by intros [= <- <- <-] |].
  destruct (Ascii.eqb (gostring.at_ hostport 0) "[") eqn:Hfirst.
  - (* bracketed: the host is between the '[' and the first ']' *)
    destruct (Z.ltb_spec (bytealg.IndexByteString hostport "]") 0)
      as [_ | Hend]; [by intros [= <- <- <-] |].
    destruct (_ =? gostring.len hostport); [by intros [= <- <- <-] |].
    destruct (_ =? _);
      [| by destruct (Ascii.eqb (gostring.at_ hostport _) ":");
         intros [= <- <- <-]].
    destruct hostport as [|b t]; [discriminate |].
    unfold gostring.at_ in Hfirst. simpl in Hfirst.
    apply Ascii.eqb_eq in Hfirst. subst b.
    rewrite (slice_from_suffix (String "[" t) "[" t 1) by reflexivity.
    destruct (occurs "[" t) eqn:Hopen; [by intros [= <- <- <-] |].
    destruct (occurs "]" (gostring.slice_from _ _)); [by intros [= <- <- <-] |].
    intros [= <- _ _].
    unfold gostring.slice. unfold bytealg.IndexByteString in *.
    simpl bytealg.index_from in *.
    set (e := bytealg.index_from (0 + 1) t "]") in *.
    replace (Z.to_nat 1) with 1%nat by lia. simpl String.substring.
    split; [by apply not_occurs_substring |].
    split; [| discriminate].
    assert (Hocc : occurs "]" t = true).
    { destruct (occurs "]" t) eqn:H; [reflexivity |].
      unfold e in Hend. rewrite index_from_absent in Hend by exact H. lia. }
    pose proof (index_from_present "]" t Hocc (0 + 1)) as Hrange.
    fold e in Hrange.
    apply (index_from_prefix "]" t (0 + 1)). fold e. lia.
  - (* plain: the host is what precedes the last colon *)
    destruct (occurs ":" (gostring.slice hostport 0 _)) eqn:Hcolon;
      [by intros [= <- <- <-] |].
    rewrite slice_from_0.
    destruct (occurs "[" hostport) eqn:Hopen; [by intros [= <- <- <-] |].
    destruct (occurs "]" hostport) eqn:Hclose; [by intros [= <- <- <-] |].
    intros [= <- _ _]. unfold gostring.slice in *.
    split; [by apply not_occurs_substring |].
    split; [by apply not_occurs_substring | done].
Qed.

(** ** More on strings *)

Lemma app_inv_head (a x y : string) : a +:+ x = a +:+ y -> x = y.
Proof.
  induction a as [|c a IH]; [done |].
  rewrite !app_cons. intros [= H]. by apply IH.
Qed.

Lemma Itoa_port_not_occurs (c : ascii) (n : N) :
  is_digit c = false -> occurs c (strconv.Itoa (Z.of_N n)) = false.
Proof. intros Hc. by apply digits_not_occurs; [apply Itoa_port_digits |]. Qed.

(** [%d] of a port and [strconv.Itoa] of it are the same text. *)
Lemma verb_d_Itoa (n : N) : fmt.verb_d n = strconv.Itoa (Z.of_N n).
Proof.
  unfold fmt.verb_d, strconv.Itoa, strconv.FormatInt10.
  destruct (Z.ltb_spec (Z.of_N n) 0); [lia | reflexivity].
Qed.

(** [strings.Join] contains each of the elements it joins. *)
Lemma Join_contains (sep e : string) (elems : list string) :
  e ∈ elems -> gostring.Contains (gostrings.Join elems sep) e = true.
Proof.
  induction elems as [|x rest IH]; intros Hin; [inversion Hin |].
  assert (Hjoin : gostrings.Join (x :: rest) sep
                  = match rest with
                    | [] => x
                    | _ => x +:+ sep +:+ gostrings.Join rest sep
                    end) by reflexivity.
  rewrite Hjoin.
  apply elem_of_cons in Hin as [-> | Hin].
  - destruct rest; [apply Contains_prefix, prefix_refl |].
    apply Contains_prefix, prefix_app.
  - destruct rest as [|y rest']; [inversion Hin |].
    do 2 apply Contains_app_r. by apply IH.
Qed.

(** ** Further properties of the methods *)

Section MoreProperties.

Variable rangeOrder : gmap string N -> list (string * N).
Hypothesis rangeOrder_perm : forall m, rangeOrder m ≡ₚ map_to_list m.
Variable isPrintTables : Z -> bool.

Lemma rangeOrder_empty : rangeOrder ∅ = [].
Proof.
  apply Permutation_nil_r. rewrite rangeOrder_perm.
  by rewrite map_to_list_empty.
Qed.

Lemma rangeOrder_singleton (name : string) (number : N) :
  rangeOrder {[ name := number ]} = [(name, number)].
Proof.
  apply Permutation_singleton_r. rewrite rangeOrder_perm.
  by rewrite map_to_list_singleton.
Qed.

(** The ip of a record made by a constructor has no bracket in it. *)
Lemma constructed_ip (a id : string) (pm : gmap string N) :
  ip (NewDetailedHostInfo a id pm) = (net.SplitHostPort a).1.1 /\
  occurs "[" (ip (NewDetailedHostInfo a id pm)) = false /\
  occurs "]" (ip (NewDetailedHostInfo a id pm)) = false.
Proof using Type.
  rewrite NewDetailedHostInfo_fields. simpl.
  destruct (net.SplitHostPort a) as [[h p] e] eqn:Ha.
  destruct (SplitHostPort_host _ _ _ _ Ha) as (H1 & H2 & _). done.
Qed.

(** [Belongs] past its first test, on a candidate that does not
    parse. *)
Lemma Belongs_unparsed
    (hi : HostInfo) (address host port : string) (e : error) :
  address <> addr hi ->
  net.SplitHostPort address = (host, port, Some e) ->
  Belongs rangeOrder hi address = (false, Some e).
Proof using Type.
  intros Hne Hsplit. unfold Belongs.
  destruct (String.eqb_spec (addr hi) address) as [Heq | _];
    [congruence |].
  by rewrite Hsplit.
Qed.

(** X1.  The address [GetNamedAddress] returns for a configured name
    splits back, with [net.SplitHostPort], into the ip of the record and
    a port string that denotes the configured port number; this holds
    for every record made by a constructor, whether its address is an
    IPv4 one, a bracketed IPv6 one or does not parse at all. *)
Theorem named_address_splits
    (a id name : string) (pm : gmap string N) (number : N) :
  pm !! name = Some number ->
  uint16_ok number ->
  exists s port : string,
    GetNamedAddress rangeOrder isPrintTables
      (NewDetailedHostInfo a id pm) name = (s, None) /\
    net.SplitHostPort s = (ip (NewDetailedHostInfo a id pm), port, None) /\
    decimal_value port = Some (Z.of_N number).
Proof using Type.
  intros Hlookup Hok.
  destruct (constructed_ip a id pm) as (_ & Hopen & Hclose).
  exists (net.JoinHostPort (ip (NewDetailedHostInfo a id pm))
            (strconv.Itoa (Z.of_N number))),
    (strconv.Itoa (Z.of_N number)).
  split; [| split].
  - unfold GetNamedAddress.
    replace (portMap (NewDetailedHostInfo a id pm)) with pm
      by (by rewrite NewDetailedHostInfo_fields).
    by rewrite Hlookup.
  - apply SplitHostPort_JoinHostPort; try done;
      by apply Itoa_port_not_occurs.
  - by apply decimal_value_Itoa.
Qed.

(** X2.  Every address [GetNamedAddress] returns for a record made by a
    constructor belongs to that record. *)
Theorem named_address_belongs
    (a id name : string) (pm : gmap string N) (number : N) :
  pm !! name = Some number ->
  Belongs rangeOrder (NewDetailedHostInfo a id pm)
    (GetNamedAddress rangeOrder isPrintTables
       (NewDetailedHostInfo a id pm) name).1
  = (true, None).
Proof.
  intros Hlookup.
  destruct (constructed_ip a id pm) as (_ & Hopen & Hclose).
  set (hi := NewDetailedHostInfo a id pm) in *.
  assert (Hpm : portMap hi = pm)
    by (unfold hi; by rewrite NewDetailedHostInfo_fields).
  unfold GetNamedAddress. rewrite Hpm, Hlookup. cbn [fst].
  set (s := net.JoinHostPort (ip hi) (strconv.Itoa (Z.of_N number))).
  assert (Hsplit : net.SplitHostPort s
                   = (ip hi, strconv.Itoa (Z.of_N number), None)).
  { apply SplitHostPort_JoinHostPort; try done;
      by apply Itoa_port_not_occurs. }
  destruct (decide (s = addr hi)) as [-> | Hne]; [apply Belongs_exact |].
  rewrite (Belongs_parsed rangeOrder hi s _ _ Hne Hsplit).
  rewrite String.eqb_refl.
  assert (Hloop : Belongs_loop (strconv.Itoa (Z.of_N number))
                    (rangeOrder (portMap hi)) = true).
  { apply (Belongs_loop_lookup rangeOrder rangeOrder_perm).
    exists name, number. by rewrite Hpm. }
  by rewrite Hloop.
Qed.

(** X3.  [Belongs] answers true exactly for the address of the record
    and for the candidates that parse, have the ip of the record for host
    and the decimal rendering of a configured port for port. *)
Theorem Belongs_true_iff (hi : HostInfo) (address : string) :
  Belongs rangeOrder hi address = (true, None) <->
  address = addr hi \/
  exists host port name number,
    net.SplitHostPort address = (host, port, None) /\
    host = ip hi /\
    portMap hi !! name = Some number /\
    port = strconv.Itoa (Z.of_N number).
Proof.
  destruct (decide (address = addr hi)) as [-> | Hne].
  { split; [by left | intros _; apply Belongs_exact]. }
  destruct (net.SplitHostPort address) as [[host port] [e |]] eqn:Hsplit.
  - split.
    + rewrite (Belongs_unparsed hi address host port e Hne Hsplit).
      discriminate.
    + intros [? | (? & ? & ? & ? & [=] & _)]. contradiction.
  - rewrite (Belongs_parsed rangeOrder hi address host port Hne Hsplit).
    split.
    + intros [= Hand]. apply andb_true_iff in Hand as [Hhost Hloop].
      apply String.eqb_eq in Hhost.
      apply (Belongs_loop_lookup rangeOrder rangeOrder_perm) in Hloop
        as (name & number & Hlookup & Hport).
      right. by exists host, port, name, number.
    + intros [? | (h & p & name & number & [= <- <-] & -> & Hlookup & Hport)];
        [contradiction |].
      rewrite String.eqb_refl.
      assert (Hloop : Belongs_loop port (rangeOrder (portMap hi)) = true).
      { apply (Belongs_loop_lookup rangeOrder rangeOrder_perm).
        by exists name, number. }
      by rewrite Hloop.
Qed.

(** X4.  A record made by [NewHostInfo] has no ports: only its own
    address, as it was given, belongs to it. *)
Theorem NewHostInfo_belongs_only_address (a address : string) :
  Belongs rangeOrder (NewHostInfo a) address = (true, None) <->
  address = a.
Proof.
  rewrite NewHostInfo_fields.
  set (hi := {| addr := a; ip := (net.SplitHostPort a).1.1; identity := "";
                portMap := ∅ |}).
  split; [| intros ->; apply (Belongs_exact rangeOrder hi)].
  intros Htrue.
  destruct (decide (address = a)) as [-> | Hne]; [reflexivity |].
  exfalso.
  destruct (net.SplitHostPort address) as [[host port] [e |]] eqn:Hsplit.
  - rewrite (Belongs_unparsed hi address host port e Hne Hsplit) in Htrue.
    discriminate.
  - rewrite (Belongs_parsed rangeOrder hi address host port Hne Hsplit)
      in Htrue.
    simpl portMap in Htrue. rewrite rangeOrder_empty in Htrue.
    simpl in Htrue. rewrite andb_false_r in Htrue. discriminate.
Qed.

(** X5.  A record made by [NewHostInfo] has no named address:
    [GetNamedAddress] returns the empty string and an error for every
    name. *)
Theorem NewHostInfo_no_named_address (a name : string) :
  exists e : error,
    GetNamedAddress rangeOrder isPrintTables (NewHostInfo a) name
    = ("", Some e).
Proof using Type.
  rewrite NewHostInfo_fields. unfold GetNamedAddress. simpl portMap.
  rewrite lookup_empty. by eexists.
Qed.

(** X7.  For a candidate without a colon that is not the address of the
    record (the empty string for one), [Belongs] returns false and the
    [net.AddrError] "missing port in address" that names the candidate. *)
Theorem Belongs_without_colon (hi : HostInfo) (address : string) :
  occurs ":" address = false ->
  address <> addr hi ->
  Belongs rangeOrder hi address
  = (false, Some (AddrError net.missingPort address)).
Proof using Type.
  intros Hcolon Hne.
  apply (Belongs_unparsed hi address "" ""); [exact Hne |].
  unfold net.SplitHostPort, bytealg.LastIndexByteString. cbv beta zeta.
  by rewrite (last_index_from_absent ":" address Hcolon).
Qed.

(** X8.  [Identity] is empty only when both the identity and the
    address of the record are, and a record made by [NewHostInfo] is
    identified by its address. *)
Theorem Identity_empty_iff (hi : HostInfo) (a : string) :
  (Identity hi = "" <-> identity hi = "" /\ addr hi = "") /\
  Identity (NewHostInfo a) = a.
Proof using Type.
  split.
  - unfold Identity.
    destruct (String.eqb_spec (identity hi) "") as [Hid | Hid];
      split; try tauto; by intros [? ?].
  - by rewrite NewHostInfo_fields.
Qed.

(** X9.  The text [PortMap.String] makes contains, for every entry of
    the table, the name, a colon and the decimal rendering of the port,
    in whatever order the entries are visited; so does the text
    [HostInfo.String] makes. *)
Theorem String_contains_entries
    (hi : HostInfo) (name : string) (number : N) :
  portMap hi !! name = Some number ->
  gostring.Contains (PortMap_String rangeOrder (portMap hi))
    (name +:+ ":" +:+ strconv.Itoa (Z.of_N number)) = true /\
  gostring.Contains (HostInfo_String rangeOrder hi)
    (name +:+ ":" +:+ strconv.Itoa (Z.of_N number)) = true.
Proof.
  intros Hlookup.
  assert (Hports : gostring.Contains (PortMap_String rangeOrder (portMap hi))
                     (name +:+ ":" +:+ strconv.Itoa (Z.of_N number)) = true).
  { unfold PortMap_String. apply Join_contains.
    apply list_elem_of_fmap. exists (name, number).
    split; [by rewrite verb_d_Itoa |].
    by apply (rangeOrder_lookup rangeOrder rangeOrder_perm). }
  split; [exact Hports |].
  unfold HostInfo_String. by do 5 apply Contains_app_r.
Qed.

(** X10.  [PortMap.String] of the nil or empty table is the empty
    string, and of a table with one entry it is that entry alone, with
    no separator; [HostInfo.String] of a record made by [NewHostInfo]
    has nothing after its two labels for identity and ports. *)
Theorem String_of_small_tables (a name : string) (number : N) :
  PortMap_String rangeOrder ∅ = "" /\
  PortMap_String rangeOrder {[ name := number ]}
  = name +:+ ":" +:+ strconv.Itoa (Z.of_N number) /\
  HostInfo_String rangeOrder (NewHostInfo a)
  = "addr: " +:+ a +:+ ", identity: , portMap: ".
Proof.
  unfold HostInfo_String, PortMap_String. rewrite NewHostInfo_fields.
  simpl portMap. simpl addr. simpl identity.
  rewrite rangeOrder_empty, rangeOrder_singleton.
  split; [reflexivity |]. split; [| reflexivity].
  simpl. by rewrite verb_d_Itoa.
Qed.

(** X11.  Names configured with different ports have different named
    addresses. *)
Theorem named_address_injective
    (hi : HostInfo) (name1 name2 : string) (number1 number2 : N) :
  portMap hi !! name1 = Some number1 ->
  portMap hi !! name2 = Some number2 ->
  uint16_ok number1 -> uint16_ok number2 ->
  GetNamedAddress rangeOrder isPrintTables hi name1
  = GetNamedAddress rangeOrder isPrintTables hi name2 ->
  number1 = number2.
Proof using Type.
  intros H1 H2 Hok1 Hok2. unfold GetNamedAddress. rewrite H1, H2.
  unfold net.JoinHostPort. intros [= Heq].
  assert (Hports : strconv.Itoa (Z.of_N number1)
                   = strconv.Itoa (Z.of_N number2)).
  { destruct (0 <=? bytealg.IndexByteString (ip hi) ":").
    - rewrite <- !string_app_assoc in Heq. by apply app_inv_head in Heq.
    - rewrite <- !string_app_assoc in Heq. by apply app_inv_head in Heq. }
  pose proof (decimal_value_Itoa number1 Hok1) as Hd1.
  pose proof (decimal_value_Itoa number2 Hok2) as Hd2.
  rewrite Hports, Hd2 in Hd1. apply N2Z.inj. congruence.
Qed.

(** X12.  When the address of a record is not in the bracketed form
    and its port is the decimal rendering of a port configured under
    some name, the named address for that name is the address of the
    record itself. *)
Theorem named_address_of_primary_port
    (a id name host : string) (pm : gmap string N) (number : N) :
  net.SplitHostPort a = (host, strconv.Itoa (Z.of_N number), None) ->
  bracketed a = false ->
  pm !! name = Some number ->
  GetNamedAddress rangeOrder isPrintTables (NewDetailedHostInfo a id pm) name
  = (GetAddress (NewDetailedHostInfo a id pm), None).
Proof using Type.
  intros Hsplit Hplain Hlookup.
  rewrite NewDetailedHostInfo_fields. unfold GetNamedAddress, GetAddress.
  simpl. rewrite Hlookup, Hsplit. simpl.
  destruct (SplitHostPort_host _ _ _ _ Hsplit) as (_ & _ & Hcolon).
  unfold net.JoinHostPort. rewrite IndexByteString_test, (Hcolon Hplain).
  by rewrite <- (SplitHostPort_unbracketed _ _ _ Hsplit Hplain).
Qed.

(** X13.  The ip of a record made by either constructor contains no
    bracket, and no colon unless the address is in the bracketed form. *)
Theorem constructed_ip_shape (a id : string) (pm : gmap string N) :
  ip (NewHostInfo a) = ip (NewDetailedHostInfo a id pm) /\
  occurs "[" (ip (NewDetailedHostInfo a id pm)) = false /\
  occurs "]" (ip (NewDetailedHostInfo a id pm)) = false /\
  (occurs ":" (ip (NewDetailedHostInfo a id pm)) = true ->
   bracketed a = true).
Proof using Type.
  rewrite NewHostInfo_fields, NewDetailedHostInfo_fields. simpl.
  destruct (net.SplitHostPort a) as [[h p] e] eqn:Ha. simpl.
  destruct (SplitHostPort_host _ _ _ _ Ha) as (H1 & H2 & H3).
  repeat split; try done.
  intros Hcolon. destruct (bracketed a); [reflexivity |].
  rewrite H3 in Hcolon; done.
Qed.

(** X14.  A record made from an address that does not parse still has
    named addresses: they have an empty host, a colon and the port. *)
Theorem named_address_of_unparsed_address
    (a id name : string) (pm : gmap string N) (number : N) (e : error) :
  (net.SplitHostPort a).2 = Some e ->
  pm !! name = Some number ->
  GetNamedAddress rangeOrder isPrintTables (NewDetailedHostInfo a id pm) name
  = (":" +:+ strconv.Itoa (Z.of_N number), None).
Proof using Type.
  intros Herr Hlookup.
  rewrite NewDetailedHostInfo_fields. unfold GetNamedAddress. simpl.
  rewrite Hlookup.
  destruct (net.SplitHostPort a) as [[h p] err] eqn:Ha.
  simpl in Herr. subst err.
  by destruct (SplitHostPort_error _ _ _ _ Ha) as [-> _].
Qed.

End MoreProperties.


(** ** The further properties on the example records *)

Lemma reversed_order_perm (m : gmap string N) :
  reversed_order m ≡ₚ map_to_list m.
Proof. unfold reversed_order. apply reverse_Permutation. Defined.

Example ipv6_host_fields :
  addr ipv6_host = "[::1]:7933" /\ ip ipv6_host = "::1" /\
  identity ipv6_host = "node-A" /\
  GetNamedAddress map_to_list no_tables ipv6_host "grpc"
  = ("[::1]:7941", None) /\
  Belongs map_to_list ipv6_host "[::1]:7941" = (true, None) /\
  Belongs map_to_list ipv6_host "::1:7941"
  = (false, Some (AddrError "too many colons in address" "::1:7941")).
Proof. repeat split; vm_compute; reflexivity. Qed.

Lemma named_address_splits_witness :
  exists s port : string,
    GetNamedAddress map_to_list no_tables
      (NewDetailedHostInfo "[::1]:7933" "node-A" example_ports) "grpc"
    = (s, None) /\
    net.SplitHostPort s
    = (ip (NewDetailedHostInfo "[::1]:7933" "node-A" example_ports),
       port, None) /\
    decimal_value port = Some (Z.of_N 7941).
Proof.
  apply (named_address_splits map_to_list no_tables
           "[::1]:7933" "node-A" "grpc" example_ports 7941%N).
  - vm_compute. reflexivity.
  - vm_compute. reflexivity.
Defined.

Lemma named_address_belongs_witness :
  Belongs map_to_list
    (NewDetailedHostInfo "[::1]:7933" "node-A" example_ports)
    (GetNamedAddress map_to_list no_tables
       (NewDetailedHostInfo "[::1]:7933" "node-A" example_ports) "grpc").1
  = (true, None).
Proof.
  apply (named_address_belongs map_to_list map_to_list_order no_tables
           "[::1]:7933" "node-A" "grpc" example_ports 7941%N).
  vm_compute. reflexivity.
Defined.

Lemma Belongs_true_iff_witness :
  Belongs map_to_list example_host "10.0.0.1:7941" = (true, None) <->
  "10.0.0.1:7941" = addr example_host \/
  exists host port name number,
    net.SplitHostPort "10.0.0.1:7941" = (host, port, None) /\
    host = ip example_host /\
    portMap example_host !! name = Some number /\
    port = strconv.Itoa (Z.of_N number).
Proof.
  apply (Belongs_true_iff map_to_list map_to_list_order example_host
           "10.0.0.1:7941").
Defined.

Lemma NewHostInfo_belongs_only_address_witness :
  Belongs map_to_list (NewHostInfo "10.0.0.1:7933") "10.0.0.1:7941"
  = (true, None) <->
  "10.0.0.1:7941" = "10.0.0.1:7933".
Proof.
  apply (NewHostInfo_belongs_only_address map_to_list map_to_list_order
           "10.0.0.1:7933" "10.0.0.1:7941").
Defined.

Lemma Belongs_order_irrelevant_witness :
  Belongs map_to_list
    (NewDetailedHostInfo "10.0.0.1:7000" "" two_ports) "10.0.0.1:7941"
  = Belongs reversed_order
      (NewDetailedHostInfo "10.0.0.1:7000" "" two_ports) "10.0.0.1:7941".
Proof.
  apply (Belongs_order_irrelevant map_to_list reversed_order
           (NewDetailedHostInfo "10.0.0.1:7000" "" two_ports)
           "10.0.0.1:7941" map_to_list_order reversed_order_perm).
Defined.

Example reversed_order_differs :
  map_to_list two_ports <> reversed_order two_ports.
Proof. vm_compute. discriminate. Qed.

Lemma Belongs_without_colon_witness :
  Belongs map_to_list example_host ""
  = (false, Some (AddrError net.missingPort "")).
Proof.
  apply (Belongs_without_colon map_to_list example_host "").
  - vm_compute. reflexivity.
  - vm_compute. discriminate.
Defined.

Lemma String_contains_entries_witness :
  gostring.Contains
    (PortMap_String reversed_order
       (portMap (NewDetailedHostInfo "10.0.0.1:7000" "" two_ports)))
    ("tchannel" +:+ ":" +:+ strconv.Itoa (Z.of_N 7933)) = true /\
  gostring.Contains
    (HostInfo_String reversed_order
       (NewDetailedHostInfo "10.0.0.1:7000" "" two_ports))
    ("tchannel" +:+ ":" +:+ strconv.Itoa (Z.of_N 7933)) = true.
Proof.
  apply (String_contains_entries reversed_order reversed_order_perm
           (NewDetailedHostInfo "10.0.0.1:7000" "" two_ports)
           "tchannel" 7933%N).
  vm_compute. reflexivity.
Defined.

Lemma String_of_small_tables_witness :
  PortMap_String map_to_list ∅ = "" /\
  PortMap_String map_to_list {[ "grpc" := 7941%N ]}
  = "grpc" +:+ ":" +:+ strconv.Itoa (Z.of_N 7941) /\
  HostInfo_String map_to_list (NewHostInfo "10.0.0.1:7933")
  = "addr: " +:+ "10.0.0.1:7933" +:+ ", identity: , portMap: ".
Proof.
  apply (String_of_small_tables map_to_list map_to_list_order
           "10.0.0.1:7933" "grpc" 7941%N).
Defined.

Lemma named_address_injective_witness :
  GetNamedAddress map_to_list no_tables
    (NewDetailedHostInfo "10.0.0.1:7933" "" shared_ports) "grpc"
  = GetNamedAddress map_to_list no_tables
      (NewDetailedHostInfo "10.0.0.1:7933" "" shared_ports) "admin" /\
  7941%N = 7941%N.
Proof.
  split; [vm_compute; reflexivity |].
  apply (named_address_injective map_to_list no_tables
           (NewDetailedHostInfo "10.0.0.1:7933" "" shared_ports)
           "grpc" "admin" 7941%N 7941%N).
  - vm_compute. reflexivity.
  - vm_compute. reflexivity.
  - vm_compute. reflexivity.
  - vm_compute. reflexivity.
  - vm_compute. reflexivity.
Defined.

Lemma named_address_of_primary_port_witness :
  GetNamedAddress map_to_list no_tables
    (NewDetailedHostInfo "10.0.0.1:7933" "" two_ports) "tchannel"
  = (GetAddress (NewDetailedHostInfo "10.0.0.1:7933" "" two_ports), None).
Proof.
  apply (named_address_of_primary_port map_to_list no_tables
           "10.0.0.1:7933" "" "tchannel" "10.0.0.1" two_ports 7933%N).
  - vm_compute. reflexivity.
  - vm_compute. reflexivity.
  - vm_compute. reflexivity.
Defined.

Lemma named_address_of_unparsed_address_witness :
  GetNamedAddress map_to_list no_tables
    (NewDetailedHostInfo "not-an-address" "" example_ports) "grpc"
  = (":" +:+ strconv.Itoa (Z.of_N 7941), None).
Proof.
  apply (named_address_of_unparsed_address map_to_list no_tables
           "not-an-address" "" "grpc" example_ports 7941%N
           (AddrError "missing port in address" "not-an-address")).
  - vm_compute. reflexivity.
  - vm_compute. reflexivity.
Defined.
